(** * cisco_deviot.thing: Property, Action and Thing

    A shallow embedding of [cisco_deviot/thing.py] and the properties of
    its registration and dispatch methods.

    Conventions of the embedding
    - A Python value is a [pyval]; the instances of the module's own
      classes are records ([Property.t], [Action.t], [Thing.t]).
    - A method of [Thing] is a computation in the monad [M]: it reads and
      writes the machine [state] (the instance [self], the store of the
      dict objects that callers hold references to, and what the logging
      collaborator has received) and either returns or raises.
    - The interpreter is Python 3: [dict.keys()] is a live view of the
      dict, and its iterator raises [RuntimeError] as soon as the size of
      the dict differs from the size it had when the iteration started.
      The list semantics of Python 2 ([keys()] returns a fresh list) is
      available as [KeysList], for comparison. *)

From Stdlib Require Import ZArith QArith SpecFloat String List Bool Lia.
From stdpp Require Import base list.
Import ListNotations.
Local Open Scope string_scope.
Local Open Scope Z_scope.

(** ** Python values, exceptions, results *)

(** The values that flow through the module: [None], booleans, integers,
    strings, floats (a signed zero, an infinity, a NaN, or plus or minus
    [m * 2^e]), and [PyObj n], an instance of some other class that
    overloads neither [__eq__] nor [__bool__] nor [__call__] (n is its
    identity). *)
Inductive pyval : Type :=
  | PyNone
  | PyBool (b : bool)
  | PyInt (z : Z)
  | PyStr (s : string)
  | PyObj (ident : nat)
  | PyFloat (f : spec_float).

(** The number that a float is, when it is one. *)
Definition float_value (f : spec_float) : option Q :=
  match f with
  | S754_zero _ => Some (inject_Z 0)
  | S754_infinity _ | S754_nan => None
  | S754_finite s m e =>
      Some (Qmult (inject_Z (if s then Zneg m else Zpos m))
                  (Qpower (inject_Z 2) e))
  end.

(** [v == n] for an integer constant [n]. A bool is an int in Python
    ([False == 0], [True == 1]), and a float equals an int when it is the
    same number ([1.0 == 1]; a NaN equals nothing); no other value of
    [pyval] equals an int. *)
Definition py_eq_int (v : pyval) (n : Z) : bool :=
  match v with
  | PyInt z => Z.eqb z n
  | PyBool b => Z.eqb (if b then 1 else 0) n
  | PyFloat f =>
      match float_value f with
      | Some q => Qeq_bool q (inject_Z n)
      | None => false
      end
  | _ => false
  end.

(** Truth value of [v], as [if v:] takes it. *)
Definition py_truthy (v : pyval) : bool :=
  match v with
  | PyNone => false
  | PyBool b => b
  | PyInt z => negb (Z.eqb z 0)
  | PyStr s => negb (String.eqb s "")
  | PyObj _ => true
  | PyFloat (S754_zero _) => false
  | PyFloat _ => true
  end.

Inductive exn : Type :=
  | AttributeError
  | IndexError
  | KeyError
  | TypeError
  | RuntimeError
  | UserError (what : string).

Inductive result (A : Type) : Type :=
  | Ok (a : A)
  | Raise (e : exn).
Arguments Ok {A} a.
Arguments Raise {A} e.

(** ** dict objects with string keys, in insertion order *)
Module Dict.

Definition t : Type := list (string * pyval).

Definition keys (d : t) : list string := map fst d.

(** [k in d] *)
Definition contains (k : string) (d : t) : bool :=
  existsb (String.eqb k) (keys d).

(** [d[k]] *)
Fixpoint getitem (k : string) (d : t) : result pyval :=
  match d with
  | [] => Raise KeyError
  | (k', v) :: d' => if String.eqb k k' then Ok v else getitem k d'
  end.

(** [d[k] = v]: an existing key keeps its place, a new one goes last. *)
Fixpoint setitem (k : string) (v : pyval) (d : t) : t :=
  match d with
  | [] => [(k, v)]
  | (k', v') :: d' =>
      if String.eqb k k' then (k', v) :: d' else (k', v') :: setitem k v d'
  end.

(** [del d[k]] *)
Fixpoint delitem (k : string) (d : t) : result t :=
  match d with
  | [] => Raise KeyError
  | (k', v') :: d' =>
      if String.eqb k k' then Ok d'
      else match delitem k d' with
           | Ok d'' => Ok ((k', v') :: d'')
           | Raise e => Raise e
           end
  end.

End Dict.

(** ** PropertyType and default_value_for_type *)

(** [class PropertyType(EnumMeta)] only carries four integer class
    attributes; [PropertyType.INT] is the int [0], and so on. *)
Module PropertyType.
Definition INT : Z := 0.
Definition STRING : Z := 1.
Definition BOOL : Z := 2.
Definition COLOR : Z := 3.
End PropertyType.

Definition default_value_for_type (stype : pyval) : pyval :=
  if py_eq_int stype PropertyType.INT then PyInt 0
  else if py_eq_int stype PropertyType.BOOL then PyBool false
  else if py_eq_int stype PropertyType.STRING then PyStr ""
  else if py_eq_int stype PropertyType.COLOR then PyStr "FFFFFF"
  else PyNone.

(** ** What get_model returns *)

(** The value of a [get_model()]: an OrderedDict (its items in order), a
    list, or a plain value at the leaves. *)
#[warnings="-register-all"] Inductive model : Type :=
  | MVal (v : pyval)
  | MList (l : list model)
  | MDict (items : list (string * model)).

(** ** class Property *)
Module Property.

Record t : Type := mk {
  name : string;
  type : pyval;
  value : pyval;
  range : pyval;
  unit : pyval;
  description : pyval
}.

(** [Property(name, type=PropertyType.INT, value=None, range=None,
    unit=None, description=None)]. An optional argument is [None] here
    when the call leaves it out, and then takes the default of the
    signature. *)
Definition init (name : string)
    (type value range unit description : option pyval) : t :=
  let type := default (PyInt PropertyType.INT) type in
  let value := default PyNone value in
  let value :=
    match value with
    | PyNone => default_value_for_type type
    | _ => value
    end in
  mk name type value
     (default PyNone range) (default PyNone unit)
     (default PyNone description).

(** The assignment [self.value = v] *)
Definition set_value (self : t) (v : pyval) : t :=
  mk (name self) (type self) v (range self) (unit self) (description self).

Definition get_model (self : t) : model :=
  MDict [("name", MVal (PyStr (name self)));
         ("type", MVal (type self));
         ("range", MVal (range self));
         ("value", MVal (value self));
         ("unit", MVal (unit self));
         ("description", MVal (description self))].

End Property.

(** ** class Action *)
Module Action.

(** The instance attributes that [__init__] sets. *)
Record t : Type := mk {
  name : string;
  parameters : list Property.t;
  need_payload : pyval
}.

(** [Action(name, **kwargs)]: one [Property(k, kwargs[k])] for each key. *)
Definition init (name : string) (kwargs : Dict.t) : t :=
  mk name
     (map (fun kv => Property.init (fst kv) (Some (snd kv))
                       None None None None) kwargs)
     (PyBool false).

(** The call [Action(name, **kwargs)]. [__init__] has the parameters
    [self] and [name] of its own, so a keyword with one of these names
    cannot be bound ([TypeError]: multiple values for the argument);
    otherwise [__init__] runs. *)
Definition new (name : string) (kwargs : Dict.t) : result t :=
  if Dict.contains "self" kwargs || Dict.contains "name" kwargs
  then Raise TypeError
  else Ok (init name kwargs).

(** The functions in the class body, as the class holds them. *)
Definition add_parameter_def (self : t) (action_parameter : Property.t) : t :=
  mk (name self) (parameters self ++ [action_parameter]) (need_payload self).

Definition need_payload_def (self : t) (payload : pyval) : t :=
  mk (name self) (parameters self) payload.

(** What [self.<attr>] evaluates to. *)
Inductive attribute : Type :=
  | Data (v : option pyval)      (* an instance attribute; its value when
                                    it is a [pyval] *)
  | Method (m : string).         (* a function of the class, bound to self *)

Definition class_defines (attr : string) : bool :=
  existsb (String.eqb attr)
          ["__init__"; "add_parameter"; "need_payload"; "get_model"].

(** Attribute lookup on an instance: the instance's own attributes come
    first, the functions of the class only after them. *)
Definition getattr (self : t) (attr : string) : result attribute :=
  if String.eqb attr "name" then Ok (Data (Some (PyStr (name self))))
  else if String.eqb attr "parameters" then Ok (Data None)
  else if String.eqb attr "need_payload" then Ok (Data (Some (need_payload self)))
  else if class_defines attr then Ok (Method attr)
  else Raise AttributeError.

(** The call [self.add_parameter(action_parameter)]: look the attribute
    up on the instance, then call what was found. Calling an attribute
    that holds a plain value (a str, a list, a bool) raises [TypeError]:
    it is not callable. *)
Definition add_parameter (self : t) (action_parameter : Property.t) : result t :=
  match getattr self "add_parameter" with
  | Ok (Method _) => Ok (add_parameter_def self action_parameter)
  | Ok (Data _) => Raise TypeError
  | Raise e => Raise e
  end.

(** The call [self.need_payload(payload)], in the same way. *)
Definition need_payload_call (self : t) (payload : pyval) : result t :=
  match getattr self "need_payload" with
  | Ok (Method _) => Ok (need_payload_def self payload)
  | Ok (Data _) => Raise TypeError
  | Raise e => Raise e
  end.

Definition get_model (self : t) : model :=
  MDict [("name", MVal (PyStr (name self)));
         ("parameters", MList (map Property.get_model (parameters self)))].

End Action.

(** ** class Thing: state, logging collaborator, monad *)

(** Anything a caller can pass to [add_property] or [add_action]. *)
Inductive object : Type :=
  | Val (v : pyval)
  | Inst (p : Property.t)
  | ActInst (a : Action.t).

(** What [add_property] can leave in [self.properties]: the items that
    passed [isinstance(property, str)] or [isinstance(property, Property)],
    as they were passed. *)
Inductive entry : Type :=
  | EStr (s : string)
  | EProperty (p : Property.t).

(** What the logging collaborator receives. The text of a message is
    kept as its template and the values formatted into it. *)
Inductive message : Type :=
  | InvalidProperty (property : object)
  | AlreadyRegistered (property : string)
  | InvalidAction (action : object)
  | Called (name action : string) (args : Dict.t).

Inductive log_entry : Type :=
  | LogError (m : message)
  | LogInfo (m : message).

(** [dict.keys()] is a view of the live dict (Python 3) or a new list of
    the keys (Python 2). *)
Inductive keys_semantics : Type :=
  | KeysView
  | KeysList.

Module Thing.

(** The instance attributes that [__init__] sets. *)
Record t : Type := mk {
  id : string;
  name : string;
  kind : string;
  properties : list entry;
  actions : list Action.t;
  options : Dict.t
}.

(** [heap] holds the dict objects that exist outside the Thing (the
    argument maps of callers), addressed by position; [log] is what the
    logger has received, oldest first. *)
Record state : Type := mkState {
  self : t;
  heap : list Dict.t;
  log : list log_entry
}.

Definition M (A : Type) : Type := state -> result A * state.

Definition ret {A} (a : A) : M A := fun st => (Ok a, st).

Definition raise {A} (e : exn) : M A := fun st => (Raise e, st).

Definition bind {A B} (m : M A) (k : A -> M B) : M B :=
  fun st =>
    match m st with
    | (Ok a, st') => k a st'
    | (Raise e, st') => (Raise e, st')
    end.

Notation "'let!' x ':=' m 'in' k" := (bind m (fun x => k))
  (at level 10, x name, m at level 100, k at level 200).
Notation "m ';;;' k" := (bind m (fun _ => k))
  (at level 100, k at level 200, right associativity).

Definition lift {A} (r : result A) : M A := fun st => (r, st).

Definition get_self : M t := fun st => (Ok (self st), st).

Definition set_self (th : t) : M unit :=
  fun st => (Ok tt, mkState th (heap st) (log st)).

(** [logger.error(msg)] and [logger.info(msg)] *)
Definition logger_error (m : message) : M unit :=
  fun st => (Ok tt, mkState (self st) (heap st) (log st ++ [LogError m])).

Definition logger_info (m : message) : M unit :=
  fun st => (Ok tt, mkState (self st) (heap st) (log st ++ [LogInfo m])).

(** Reading and writing the dict object at address [l]. An address that
    holds no dict stands for an argument that is not a dict: the
    attribute looked up on it is missing. *)
Definition deref (l : nat) : M Dict.t :=
  fun st =>
    match heap st !! l with
    | Some d => (Ok d, st)
    | None => (Raise AttributeError, st)
    end.

Definition store (l : nat) (d : Dict.t) : M unit :=
  fun st => (Ok tt, mkState (self st) (<[l := d]> (heap st)) (log st)).

(** *** Construction and reading *)

(** [Thing(id, name, kind=None)]; [class_name] is
    [self.__class__.__name__] and [str_lower] is [str.lower]. *)
Definition init (str_lower : string -> string) (class_name : string)
    (id name : string) (kind : option string) : t :=
  mk id name (default (str_lower class_name) kind) [] [] [].

(** [str(self)] *)
Definition str (th : t) : string :=
  id th ++ "." ++ name th ++ "(" ++ kind th ++ ")".

(** [e.name] and [e.value] on an element of [self.properties]: a str has
    neither attribute. *)
Definition attr_name (e : entry) : result string :=
  match e with
  | EProperty p => Ok (Property.name p)
  | EStr _ => Raise AttributeError
  end.

Definition attr_value (e : entry) : result pyval :=
  match e with
  | EProperty p => Ok (Property.value p)
  | EStr _ => Raise AttributeError
  end.

(** [[property.name for property in props]] *)
Fixpoint names_of (props : list entry) : result (list string) :=
  match props with
  | [] => Ok []
  | e :: props' =>
      match attr_name e with
      | Raise x => Raise x
      | Ok n =>
          match names_of props' with
          | Raise x => Raise x
          | Ok ns => Ok (n :: ns)
          end
      end
  end.

(** [{prop.name: prop.value for prop in props}] *)
Fixpoint data_of (props : list entry) (acc : Dict.t) : result Dict.t :=
  match props with
  | [] => Ok acc
  | e :: props' =>
      match attr_name e, attr_value e with
      | Ok n, Ok v => data_of props' (Dict.setitem n v acc)
      | Raise x, _ => Raise x
      | _, Raise x => Raise x
      end
  end.

Definition get_data : M Dict.t :=
  let! th := get_self in lift (data_of (properties th) []).

(** [[p.get_model() for p in props]]: a str has no [get_model]. *)
Fixpoint models_of (props : list entry) : result (list model) :=
  match props with
  | [] => Ok []
  | e :: props' =>
      match e with
      | EStr _ => Raise AttributeError
      | EProperty p =>
          match models_of props' with
          | Raise x => Raise x
          | Ok ms => Ok (Property.get_model p :: ms)
          end
      end
  end.

Definition get_model : M model :=
  let! th := get_self in
  let! ps := lift (models_of (properties th)) in
  ret (MDict [("id", MVal (PyStr (id th)));
              ("name", MVal (PyStr (name th)));
              ("kind", MVal (PyStr (kind th)));
              ("properties", MList ps);
              ("actions", MList (map Action.get_model (actions th)))]).

Definition _has_property (prop : string) : M bool :=
  let! th := get_self in
  let! names := lift (names_of (properties th)) in
  ret (existsb (String.eqb prop) names).

(** *** Registration *)

Definition append_property (e : entry) : M unit :=
  let! th := get_self in
  set_self (mk (id th) (name th) (kind th) (properties th ++ [e])
               (actions th) (options th)).

(** [add_property] with its variadic [thing_properties]. In an iteration, [added_property]
    is what the duplicate check looks at, and [property], the item
    itself, is what [self.properties.append(property)] appends. *)
Fixpoint add_property_loop (thing_properties : list object) : M unit :=
  match thing_properties with
  | [] => ret tt
  | property :: rest =>
      let checked :=
        match property with
        | Val (PyStr s) =>               (* isinstance(property, str) *)
            Some (Property.init s None None None None None, EStr s)
        | Inst p =>                      (* isinstance(property, Property) *)
            Some (p, EProperty p)
        | _ => None
        end in
      match checked with
      | None =>
          logger_error (InvalidProperty property) ;;;
          add_property_loop rest                              (* continue *)
      | Some (added_property, item) =>
          let! dup := _has_property (Property.name added_property) in
          if (dup : bool) then
            logger_error (AlreadyRegistered (Property.name added_property))
                                                              (* break *)
          else
            append_property item ;;;
            add_property_loop rest
      end
  end.

Definition add_property (thing_properties : list object) : M unit :=
  add_property_loop thing_properties.

(** The inner loop of [update_property]: the first element whose name
    is [new_prop_name] gets the value, and the scan stops there. The
    assignment is made on the element of the collection, which holds its
    Property instances by value: another holder of the same object (an
    Action that has it as a parameter) is not followed. *)
Fixpoint update_first (new_prop_name : string) (v : pyval)
    (props : list entry) : result (list entry) :=
  match props with
  | [] => Ok []
  | existing_prop :: props' =>
      match existing_prop with
      | EStr _ => Raise AttributeError          (* existing_prop.name *)
      | EProperty p =>
          if String.eqb new_prop_name (Property.name p) then
            Ok (EProperty (Property.set_value p v) :: props')     (* break *)
          else
            match update_first new_prop_name v props' with
            | Ok props'' => Ok (existing_prop :: props'')
            | Raise x => Raise x
            end
      end
  end.

(** The outer loop of [update_property], over the keyword arguments. *)
Fixpoint update_property_loop (new_properties : Dict.t) : M unit :=
  match new_properties with
  | [] => ret tt
  | (new_prop_name, v) :: rest =>
      let! th := get_self in
      let! props := lift (update_first new_prop_name v (properties th)) in
      set_self (mk (id th) (name th) (kind th) props
                   (actions th) (options th)) ;;;
      update_property_loop rest
  end.

(** The call [self.update_property] with the keyword arguments
    [new_properties]. The method has the parameter [self] of its own, so
    a keyword named self cannot be bound ([TypeError]: multiple values
    for the argument) and the body does not run. *)
Definition update_property (new_properties : Dict.t) : M unit :=
  if Dict.contains "self" new_properties then raise TypeError
  else update_property_loop new_properties.

Definition append_action (a : Action.t) : M unit :=
  let! th := get_self in
  set_self (mk (id th) (name th) (kind th) (properties th)
               (actions th ++ [a]) (options th)).

(** [add_action] with its variadic [thing_actions] *)
Fixpoint add_action (thing_actions : list object) : M unit :=
  match thing_actions with
  | [] => ret tt
  | act :: rest =>
      match act with
      | Val (PyStr s) => append_action (Action.init s [])
      | ActInst a => append_action a
      | _ => logger_error (InvalidAction act)
      end ;;;
      add_action rest
  end.

(** *** Dispatch *)

(** What [getattr(self, method)] can find: a callable, which takes the
    keyword arguments and runs on the machine state, or an object that is
    not callable (a str, a list, a dict). *)
Inductive member : Type :=
  | Callable (f : Dict.t -> M unit)
  | NotCallable.

(** The loop [for k in args.keys(): if k not in valid_args: del args[k]].
    [pending] are the keys the iterator has not produced yet and [used]
    the size of the dict when the iteration started. Each step of a view
    iterator first compares the current size of the dict with [used]. *)
Fixpoint filter_args (ks : keys_semantics) (args : nat)
    (valid_args : Dict.t) (used : nat) (pending : list string) : M unit :=
  let! d := deref args in
  let changed_size :=
    match ks with
    | KeysView => negb (Nat.eqb (length d) used)
    | KeysList => false
    end in
  if changed_size then raise RuntimeError
  else
    match pending with
    | [] => ret tt
    | k :: pending' =>
        (if Dict.contains k valid_args then ret tt
         else let! d' := lift (Dict.delitem k d) in store args d') ;;;
        filter_args ks args valid_args used pending'
    end.

(** [valid_args]: a key for each declared parameter, and "payload" when
    [action_model.need_payload] is true. *)
Definition valid_args_of (action_model : Action.t) : Dict.t :=
  let valid_args :=
    fold_left (fun d p => Dict.setitem (Property.name p) (PyBool true) d)
              (Action.parameters action_model) [] in
  if py_truthy (Action.need_payload action_model)
  then Dict.setitem "payload" (PyBool true) valid_args
  else valid_args.

Section Dispatch.

(** What attribute lookup on [self] resolves a name to, by the rules of
    the language (data descriptors of the class, then the attributes of
    the instance, then the class of the device and its bases): the host
    object is not part of this module. *)
Variable cls : string -> option member.

(** [getattr(self, method)] *)
Definition getattr (method : string) : M member :=
  match cls method with
  | Some m => ret m
  | None => raise AttributeError
  end.

(** [action_method.__call__] on the unpacked [args]: the callee gets the keyword
    arguments as a mapping of its own. A str, a list or a dict has no
    [__call__]. *)
Definition call (action_method : member) (kwargs : Dict.t) : M unit :=
  match action_method with
  | Callable f => f kwargs
  | NotCallable => raise AttributeError
  end.

Definition call_action_with (ks : keys_semantics)
    (method : string) (args : nat) : M unit :=
  let! action_method := getattr method in
  let! th := get_self in
  let matches :=
    List.filter (fun a => String.eqb (Action.name a) method) (actions th) in
  let! action_model :=
    match matches with
    | a :: _ => ret a
    | [] => raise IndexError
    end in
  let valid_args := valid_args_of action_model in
  let! d := deref args in
  filter_args ks args valid_args (length d) (Dict.keys d) ;;;
  let! kwargs := deref args in
  call action_method kwargs ;;;
  let! th := get_self in
  let! d := deref args in
  logger_info (Called (str th) method d).

Definition call_action : string -> nat -> M unit :=
  call_action_with KeysView.

End Dispatch.

End Thing.

(** * Properties *)

Import Thing.

(** ** default_value_for_type and Property *)

Lemma Qeq_bool_two (q : Q) (a b : Z) :
  a <> b -> Qeq_bool q (inject_Z a) = true -> Qeq_bool q (inject_Z b) = false.
Proof.
  intros Hab Ha.
  destruct (Qeq_bool q (inject_Z b)) eqn:Hb; [| reflexivity].
  exfalso. apply Hab.
  apply Qeq_bool_eq in Ha. apply Qeq_bool_eq in Hb.
  rewrite Ha in Hb. unfold Qeq in Hb. simpl in Hb. lia.
Qed.

(** C7 (as amended): default_value_for_type is a total function without
    effects. It gives 0 for INT, False for BOOL, the empty string for
    STRING and "FFFFFF" for COLOR, the four members being the ints 0, 2,
    1, 3; every input that [==] makes equal to one of them selects the
    same default (False and 0.0 as 0, True and 1.0 as 1, 2.0 as 2, 3.0
    as 3); every other input (None, any str, any other object, any other
    int or float, a NaN or an infinity) gives None. *)
Theorem default_value_for_type_by_value (stype : pyval) :
  default_value_for_type (PyInt PropertyType.INT) = PyInt 0 /\
  default_value_for_type (PyInt PropertyType.BOOL) = PyBool false /\
  default_value_for_type (PyInt PropertyType.STRING) = PyStr "" /\
  default_value_for_type (PyInt PropertyType.COLOR) = PyStr "FFFFFF" /\
  default_value_for_type stype =
    match stype with
    | PyNone | PyStr _ | PyObj _ => PyNone
    | PyBool b => if b then PyStr "" else PyInt 0
    | PyInt z =>
        if Z.eqb z 0 then PyInt 0
        else if Z.eqb z 1 then PyStr ""
        else if Z.eqb z 2 then PyBool false
        else if Z.eqb z 3 then PyStr "FFFFFF"
        else PyNone
    | PyFloat f =>
        match float_value f with
        | None => PyNone
        | Some q =>
            if Qeq_bool q (inject_Z 0) then PyInt 0
            else if Qeq_bool q (inject_Z 1) then PyStr ""
            else if Qeq_bool q (inject_Z 2) then PyBool false
            else if Qeq_bool q (inject_Z 3) then PyStr "FFFFFF"
            else PyNone
        end
    end /\
  (* 0.0, -0.0, 1.0, 2.0, 3.0, then 0.5, a NaN and an infinity *)
  default_value_for_type (PyFloat (S754_zero false)) = PyInt 0 /\
  default_value_for_type (PyFloat (S754_zero true)) = PyInt 0 /\
  default_value_for_type (PyFloat (S754_finite false 4503599627370496 (-52)))
    = PyStr "" /\
  default_value_for_type (PyFloat (S754_finite false 4503599627370496 (-51)))
    = PyBool false /\
  default_value_for_type (PyFloat (S754_finite false 6755399441055744 (-51)))
    = PyStr "FFFFFF" /\
  default_value_for_type (PyFloat (S754_finite false 4503599627370496 (-53)))
    = PyNone /\
  default_value_for_type (PyFloat S754_nan) = PyNone /\
  default_value_for_type (PyFloat (S754_infinity false)) = PyNone.
Proof.
  do 4 (split; [reflexivity|]).
  split; [| repeat split; vm_compute; reflexivity].
  unfold default_value_for_type, py_eq_int,
    PropertyType.INT, PropertyType.BOOL, PropertyType.STRING, PropertyType.COLOR.
  destruct stype as [| b | z | s | n | f]; try reflexivity.
  - now destruct b.
  - destruct (Z.eqb_spec z 0) as [-> | _]; [reflexivity|].
    destruct (Z.eqb_spec z 2) as [-> | _]; [reflexivity|].
    reflexivity.
  - destruct (float_value f) as [q |]; [| reflexivity].
    destruct (Qeq_bool q (inject_Z 0)); [reflexivity|].
    destruct (Qeq_bool q (inject_Z 2)) eqn:H2.
    + now rewrite (Qeq_bool_two q 2 1 ltac:(lia) H2).
    + reflexivity.
Qed.

(** C7, counterexample to the claim as it was stated: True is none of
    the four members of PropertyType (it is a bool, they are ints), and
    its default is the empty string, not None. *)
Lemma default_value_for_type_True :
  PyBool true <> PyInt PropertyType.INT /\
  PyBool true <> PyInt PropertyType.BOOL /\
  PyBool true <> PyInt PropertyType.STRING /\
  PyBool true <> PyInt PropertyType.COLOR /\
  default_value_for_type (PyBool true) = PyStr "" /\
  default_value_for_type (PyBool true) <> PyNone.
Proof. repeat split; discriminate. Qed.

(** None, every str, every other object and every int outside 0..3 give
    None. *)
Lemma default_value_for_type_other (stype : pyval) :
  match stype with
  | PyNone | PyStr _ | PyObj _ => True
  | PyInt z => z < 0 \/ 3 < z
  | PyBool _ | PyFloat _ => False
  end ->
  default_value_for_type stype = PyNone.
Proof.
  destruct stype as [| b | z | s | n | f]; simpl; try reflexivity; try tauto.
  intros Hz. unfold default_value_for_type, py_eq_int,
    PropertyType.INT, PropertyType.BOOL, PropertyType.STRING, PropertyType.COLOR.
  destruct (Z.eqb_spec z 0); [lia|].
  destruct (Z.eqb_spec z 2); [lia|].
  destruct (Z.eqb_spec z 1); [lia|].
  destruct (Z.eqb_spec z 3); [lia|].
  reflexivity.
Qed.

(** C8: a Property constructed without a value holds the default of its
    declared type; constructed with a value [v] that is not None (None is
    what an omitted value is), it holds [v] itself, falsy or not. *)
Theorem Property_init_value (name : string)
    (type range unit description : option pyval) (v : pyval)
    (Hv : v <> PyNone) :
  Property.value (Property.init name type None range unit description)
    = default_value_for_type
        (Property.type (Property.init name type None range unit description)) /\
  Property.type (Property.init name type None range unit description)
    = default (PyInt PropertyType.INT) type /\
  Property.value (Property.init name type (Some v) range unit description) = v.
Proof.
  repeat split.
  destruct v; simpl; try reflexivity. contradiction.
Qed.

Lemma Property_init_value_witness :
  Property.value (Property.init "level" (Some (PyInt PropertyType.STRING))
                    (Some (PyInt 0)) None None None) = PyInt 0.
Proof.
  apply (Property_init_value "level" (Some (PyInt PropertyType.STRING))
           None None None (PyInt 0)).
  discriminate.
Defined.

Lemma Property_init_keeps_falsy (name : string) (type : option pyval) :
  Property.value (Property.init name type (Some (PyInt 0)) None None None) = PyInt 0 /\
  Property.value (Property.init name type (Some (PyBool false)) None None None)
    = PyBool false /\
  Property.value (Property.init name type (Some (PyStr "")) None None None) = PyStr "".
Proof. repeat split. Qed.

(** ** Action *)

(** Once the arguments are bound, the body of [__init__] makes of each
    keyword [k=t] a parameter named [k] of type [t]. *)
Lemma Action_init_parameter (n : string) (kwargs : Dict.t)
    (k : string) (t : pyval) (Hk : In (k, t) kwargs) :
  exists p,
    In p (Action.parameters (Action.init n kwargs)) /\
    Property.name p = k /\
    Property.type p = t /\
    Property.value p = default_value_for_type t.
Proof.
  exists (Property.init k (Some t) None None None None).
  split; [| now repeat split].
  unfold Action.init; simpl.
  apply in_map_iff. exists (k, t). now split.
Qed.

(** C5 (as amended): for keyword arguments none of which is named self
    or name, [Action(n, k=t, ...)] returns an Action named [n] that has,
    for each keyword [k=t], a parameter named [k] whose type is [t] (the
    value of the keyword selects the type, it is not stored as a value)
    and whose value is [default_value_for_type(t)]. *)
Theorem Action_new_parameter (n : string) (kwargs : Dict.t)
    (k : string) (t : pyval)
    (Hself : Dict.contains "self" kwargs = false)
    (Hname : Dict.contains "name" kwargs = false)
    (Hk : In (k, t) kwargs) :
  exists a : Action.t,
    Action.new n kwargs = Ok a /\
    Action.name a = n /\
    Action.need_payload a = PyBool false /\
    exists p : Property.t,
      In p (Action.parameters a) /\
      Property.name p = k /\
      Property.type p = t /\
      Property.value p = default_value_for_type t.
Proof.
  exists (Action.init n kwargs).
  unfold Action.new. rewrite Hself, Hname.
  repeat split.
  exists (Property.init k (Some t) None None None None).
  split; [| now repeat split].
  unfold Action.init; simpl.
  apply in_map_iff. exists (k, t). now split.
Qed.

Lemma Action_new_parameter_witness :
  exists a : Action.t,
    Action.new "setColor" [("color", PyInt PropertyType.COLOR)] = Ok a /\
    Action.name a = "setColor" /\
    Action.need_payload a = PyBool false /\
    exists p : Property.t,
      In p (Action.parameters a) /\
      Property.name p = "color" /\
      Property.type p = PyInt PropertyType.COLOR /\
      Property.value p = default_value_for_type (PyInt PropertyType.COLOR).
Proof.
  apply (Action_new_parameter "setColor"
           [("color", PyInt PropertyType.COLOR)] "color" (PyInt PropertyType.COLOR)).
  - reflexivity.
  - reflexivity.
  - simpl; left; reflexivity.
Defined.

(** C5, counterexample to the claim as it was stated: the keyword name
    collides with the parameter [name] of [__init__]; the call
    [Action("setName", name=PropertyType.STRING)] raises TypeError and
    no Action, so no parameter named name, comes of it. *)
Lemma Action_new_name_keyword :
  Action.new "setName" [("name", PyInt PropertyType.STRING)] = Raise TypeError /\
  ~ exists a : Action.t,
      Action.new "setName" [("name", PyInt PropertyType.STRING)] = Ok a /\
      exists p : Property.t,
        In p (Action.parameters a) /\
        Property.name p = "name" /\
        Property.type p = PyInt PropertyType.STRING.
Proof.
  split; [reflexivity|].
  intros (a & Hnew & _). discriminate Hnew.
Qed.

(** The same for every name and every batch of keywords with self or
    name among them. *)
Lemma Action_new_collision (n : string) (kwargs : Dict.t) :
  Dict.contains "self" kwargs || Dict.contains "name" kwargs = true ->
  Action.new n kwargs = Raise TypeError.
Proof. intros Hc. unfold Action.new. now rewrite Hc. Qed.

(** C6: on every Action, the call [action.need_payload(payload)] raises
    TypeError: the attribute lookup finds the instance attribute that
    [__init__] set (a bool), not the function of the class, so nothing is
    marked and nothing is returned for chaining. *)
Theorem need_payload_setter_raises (a : Action.t) (payload : pyval) :
  Action.getattr a "need_payload" = Ok (Action.Data (Some (Action.need_payload a))) /\
  Action.need_payload_call a payload = Raise TypeError.
Proof. split; reflexivity. Qed.

Lemma need_payload_after_init (n : string) (kwargs : Dict.t) :
  Action.need_payload (Action.init n kwargs) = PyBool false /\
  Action.need_payload_call (Action.init n kwargs) (PyBool true) = Raise TypeError.
Proof. split; reflexivity. Qed.

(** The sibling builder is not shadowed and chains. *)
Lemma add_parameter_chains (a : Action.t) (p : Property.t) :
  Action.add_parameter a p = Ok (Action.add_parameter_def a p).
Proof. reflexivity. Qed.

(** The function of the class itself, were it reached, sets the flag. *)
Lemma need_payload_def_sets (a : Action.t) (payload : pyval) :
  Action.need_payload (Action.need_payload_def a payload) = payload /\
  Action.name (Action.need_payload_def a payload) = Action.name a /\
  Action.parameters (Action.need_payload_def a payload) = Action.parameters a.
Proof. repeat split. Qed.

(** ** Registration of properties *)

Lemma names_of_instances (props : list Property.t) :
  names_of (map EProperty props) = Ok (map Property.name props).
Proof.
  induction props as [| p props IH]; simpl; [reflexivity|].
  now rewrite IH.
Qed.

Lemma names_of_str (props : list Property.t) (s : string) (more : list entry) :
  names_of (map EProperty props ++ EStr s :: more) = Raise AttributeError.
Proof.
  induction props as [| p props IH]; simpl; [reflexivity|].
  now rewrite IH.
Qed.

(** C2: on a Thing without properties, [add_property("temp")] appends the
    str "temp" itself, not the Property built from it; the second
    [add_property("temp")] then raises AttributeError from the scan of the
    names (a str has no [name]), with nothing reported to the logger. *)
Theorem add_property_temp_twice (i n k : string) (acts : list Action.t)
    (opts : Dict.t) (h : list Dict.t) (lg : list log_entry) :
  let st0 := mkState (Thing.mk i n k [] acts opts) h lg in
  let st1 := mkState (Thing.mk i n k [EStr "temp"] acts opts) h lg in
  add_property [Val (PyStr "temp")] st0 = (Ok tt, st1) /\
  add_property [Val (PyStr "temp")] st1 = (Raise AttributeError, st1) /\
  get_data st1 = (Raise AttributeError, st1).
Proof. repeat split. Qed.

(** With Property instances the duplicate check does what it is there
    for: the name is reported and the rest of the batch is left out. *)
Lemma add_property_duplicate_instance (st : state) (props : list Property.t)
    (p : Property.t) (rest : list object) :
  properties (self st) = map EProperty props ->
  In (Property.name p) (map Property.name props) ->
  add_property (Inst p :: rest) st
    = (Ok tt, mkState (self st) (heap st)
                (log st ++ [LogError (AlreadyRegistered (Property.name p))])).
Proof.
  intros Hprops Hin.
  unfold add_property; simpl.
  unfold bind, _has_property, bind, get_self, lift; simpl.
  rewrite Hprops, names_of_instances. unfold ret.
  assert (Hdup : existsb (String.eqb (Property.name p))
                   (map Property.name props) = true).
  { apply existsb_exists. exists (Property.name p).
    split; [assumption | apply String.eqb_refl]. }
  now rewrite Hdup.
Qed.

(** C3: on a Thing holding the Property instances a, b, c,
    [add_property(42, "d")] reports 42 and goes on, and what it appends
    for "d" is the str "d", not a Property: the collection is then
    a, b, c and a str, which has no name for the next scan to read. *)
Theorem add_property_invalid_then_name
    (i n k : string) (acts : list Action.t) (opts : Dict.t)
    (h : list Dict.t) (lg : list log_entry)
    (ta va ra ua da tb vb rb ub db tc vc rc uc dc : pyval) :
  let a := Property.mk "a" ta va ra ua da in
  let b := Property.mk "b" tb vb rb ub db in
  let c := Property.mk "c" tc vc rc uc dc in
  let st := mkState (Thing.mk i n k [EProperty a; EProperty b; EProperty c]
                       acts opts) h lg in
  let st' := mkState (Thing.mk i n k
                        [EProperty a; EProperty b; EProperty c; EStr "d"]
                        acts opts) h
               (lg ++ [LogError (InvalidProperty (Val (PyInt 42)))]) in
  add_property [Val (PyInt 42); Val (PyStr "d")] st = (Ok tt, st') /\
  names_of (properties (self st')) = Raise AttributeError /\
  _has_property "d" st' = (Raise AttributeError, st') /\
  get_data st' = (Raise AttributeError, st').
Proof. repeat split. Qed.

(** The part of the batch rule that holds whatever is registered: an item
    that is neither a str nor a Property is reported and the loop goes on
    with the items after it. *)
Lemma add_property_invalid_continues (o : object) (rest : list object)
    (st : state) :
  match o with Val (PyStr _) | Inst _ => False | _ => True end ->
  add_property (o :: rest) st
    = add_property rest
        (mkState (self st) (heap st) (log st ++ [LogError (InvalidProperty o)])).
Proof.
  intros Ho. unfold add_property.
  destruct o as [[| b | z | s | m | fl] | p | a]; try contradiction; reflexivity.
Qed.

(** ** update_property *)

Lemma update_first_absent (x : string) (v : pyval) (props : list Property.t) :
  ~ In x (map Property.name props) ->
  update_first x v (map EProperty props) = Ok (map EProperty props).
Proof.
  induction props as [| p props IH]; simpl; intros Hx; [reflexivity|].
  destruct (String.eqb_spec x (Property.name p)) as [-> | Hne].
  - exfalso; apply Hx; now left.
  - rewrite IH; [reflexivity|]. intros Hin; apply Hx; now right.
Qed.

Lemma update_first_present (x : string) (v : pyval) (props : list Property.t) :
  In x (map Property.name props) ->
  exists (i : nat) (p : Property.t),
    props !! i = Some p /\
    Property.name p = x /\
    (forall (j : nat) (q : Property.t),
        (j < i)%nat -> props !! j = Some q -> Property.name q <> x) /\
    update_first x v (map EProperty props)
      = Ok (map EProperty (<[i := Property.set_value p v]> props)).
Proof.
  induction props as [| p props IH]; simpl; intros Hx; [contradiction|].
  destruct (String.eqb_spec x (Property.name p)) as [-> | Hne].
  - exists 0%nat, p. repeat split; try reflexivity.
    intros j q Hj; lia.
  - destruct Hx as [Hx | Hx]; [congruence|].
    destruct (IH Hx) as (i & q & Hi & Hq & Hfirst & Hup).
    exists (S i), q. repeat split; try assumption.
    + intros [| j] r Hj Hr; simpl in Hr.
      * injection Hr as <-. congruence.
      * apply (Hfirst j r); [lia | assumption].
    + now rewrite Hup.
Qed.

(** Whatever the collection holds, a name that no Property in it has
    leaves the state as it was and reaches the logger with nothing; the
    call returns unless the scan meets a str. *)
Lemma update_first_unregistered (z : string) (w : pyval) (props : list entry) :
  (forall p, In (EProperty p) props -> Property.name p <> z) ->
  update_first z w props = Ok props \/
  update_first z w props = Raise AttributeError.
Proof.
  induction props as [| e props IH]; simpl; intros Hno; [now left|].
  destruct e as [s | p]; [now right|].
  destruct (String.eqb_spec z (Property.name p)) as [-> | _].
  - exfalso. apply (Hno p); [now left | reflexivity].
  - destruct IH as [-> | ->]; [| now left | now right].
    intros q Hq. apply Hno. now right.
Qed.

Lemma contains_self_single (x : string) (v : pyval) :
  x <> "self" -> Dict.contains "self" [(x, v)] = false.
Proof.
  intros Hx. unfold Dict.contains, Dict.keys. cbn [map fst existsb].
  assert (Hne : String.eqb "self" x = false)
    by (apply String.eqb_neq; congruence).
  now rewrite Hne.
Qed.

(** A call with one keyword that is not self. *)
Lemma update_property_single (st : state) (x : string) (v : pyval) :
  x <> "self" ->
  update_property [(x, v)] st =
    match update_first x v (properties (self st)) with
    | Ok props =>
        (Ok tt,
         mkState (Thing.mk (id (self st)) (name (self st)) (kind (self st))
                    props (actions (self st)) (options (self st)))
                 (heap st) (log st))
    | Raise e => (Raise e, st)
    end.
Proof.
  intros Hx. unfold update_property. rewrite (contains_self_single x v Hx).
  unfold update_property_loop, bind, get_self, lift, set_self, ret; simpl.
  now destruct (update_first x v (properties (self st))).
Qed.

(** A keyword named self never reaches the body. *)
Lemma update_property_self (kwargs : Dict.t) (st : state) :
  Dict.contains "self" kwargs = true ->
  update_property kwargs st = (Raise TypeError, st).
Proof. intros Hself. unfold update_property. now rewrite Hself. Qed.

Lemma update_first_at (x : string) (v : pyval) (before : list Property.t)
    (p : Property.t) (after : list entry) :
  ~ In x (map Property.name before) ->
  Property.name p = x ->
  update_first x v (map EProperty before ++ EProperty p :: after)
    = Ok (map EProperty before ++ EProperty (Property.set_value p v) :: after)%list.
Proof.
  intros Hfirst Hp.
  induction before as [| b before IH]; simpl.
  - rewrite Hp, String.eqb_refl. reflexivity.
  - destruct (String.eqb_spec x (Property.name b)) as [Heq | _].
    + exfalso. apply Hfirst. left. now symmetry.
    + rewrite IH; [reflexivity|]. intros Hin. apply Hfirst. now right.
Qed.

Lemma update_first_no_str (z : string) (w : pyval) (props : list entry) :
  (forall s, ~ In (EStr s) props) ->
  (forall q, In (EProperty q) props -> Property.name q <> z) ->
  update_first z w props = Ok props.
Proof.
  induction props as [| e props IH]; simpl; intros Hstr Hno; [reflexivity|].
  destruct e as [s | q]; [exfalso; apply (Hstr s); now left|].
  destruct (String.eqb_spec z (Property.name q)) as [Heq | _].
  - exfalso. apply (Hno q); [now left | now symmetry].
  - rewrite IH; [reflexivity | |].
    + intros s Hs. apply (Hstr s). now right.
    + intros r Hr. apply Hno. now right.
Qed.

Lemma update_first_meets_str (z : string) (w : pyval) (props : list entry)
    (s : string) :
  (forall q, In (EProperty q) props -> Property.name q <> z) ->
  In (EStr s) props ->
  update_first z w props = Raise AttributeError.
Proof.
  induction props as [| e props IH]; simpl; intros Hno Hin; [contradiction|].
  destruct e as [s' | q]; [reflexivity|].
  destruct (String.eqb_spec z (Property.name q)) as [Heq | _].
  - exfalso. apply (Hno q); [now left | now symmetry].
  - destruct Hin as [Hin | Hin]; [discriminate|].
    rewrite IH; [reflexivity | | assumption].
    intros r Hr. apply Hno. now right.
Qed.

(** C9: [update_property(x=v)], on a Thing whose first Property named [x]
    is reached by the scan (only Property instances stand before it),
    returns and gives that Property the value [v]; its name, type, range,
    unit and description, every other element of the collection, the
    length and the order, the identity and options of the Thing, the
    dicts of the callers and the log are as before. For a name [z] that
    no Property of the collection has, [update_property(z=w)] changes no
    state at all, and nothing reaches the logger; it returns, unless
    [add_property] left a str in the collection, which makes the scan
    raise AttributeError. ([x] and [z] are keywords that can be passed:
    they are not self.) *)
Theorem update_property_frame (st : state) (before : list Property.t)
    (p : Property.t) (after : list entry) (x z : string) (v w : pyval)
    (Hx : x <> "self") (Hz : z <> "self")
    (Hprops : properties (self st)
              = (map EProperty before ++ EProperty p :: after)%list)
    (Hp : Property.name p = x)
    (Hfirst : ~ In x (map Property.name before))
    (Hunreg : forall q, In (EProperty q) (properties (self st)) ->
                        Property.name q <> z) :
  (fst (update_property [(x, v)] st) = Ok tt /\
   (exists q : Property.t,
       properties (self (snd (update_property [(x, v)] st)))
         = (map EProperty before ++ EProperty q :: after)%list /\
       Property.value q = v /\
       Property.name q = Property.name p /\
       Property.type q = Property.type p /\
       Property.range q = Property.range p /\
       Property.unit q = Property.unit p /\
       Property.description q = Property.description p) /\
   length (properties (self (snd (update_property [(x, v)] st))))
     = length (properties (self st)) /\
   id (self (snd (update_property [(x, v)] st))) = id (self st) /\
   name (self (snd (update_property [(x, v)] st))) = name (self st) /\
   kind (self (snd (update_property [(x, v)] st))) = kind (self st) /\
   options (self (snd (update_property [(x, v)] st))) = options (self st) /\
   heap (snd (update_property [(x, v)] st)) = heap st /\
   log (snd (update_property [(x, v)] st)) = log st) /\
  snd (update_property [(z, w)] st) = st /\
  ((forall s, ~ In (EStr s) (properties (self st))) ->
   fst (update_property [(z, w)] st) = Ok tt) /\
  (forall s, In (EStr s) (properties (self st)) ->
             fst (update_property [(z, w)] st) = Raise AttributeError).
Proof.
  split; [| split; [| split]].
  - rewrite (update_property_single st x v Hx), Hprops,
      (update_first_at x v before p after Hfirst Hp).
    cbn [fst snd self properties id name kind options heap log].
    split; [reflexivity|]. split.
    + exists (Property.set_value p v). now repeat split.
    + repeat split. rewrite !length_app. reflexivity.
  - rewrite (update_property_single st z w Hz).
    destruct (update_first_unregistered z w _ Hunreg) as [-> | ->];
      [| reflexivity].
    cbn [snd]. now destruct st as [[i n k ps acts opts] h lg].
  - intros Hstr. rewrite (update_property_single st z w Hz).
    now rewrite (update_first_no_str z w _ Hstr Hunreg).
  - intros s Hs. rewrite (update_property_single st z w Hz).
    now rewrite (update_first_meets_str z w _ s Hunreg Hs).
Qed.

Lemma update_property_frame_witness :
  let x := Property.init "x" None (Some (PyInt 5)) None None None in
  let y := Property.init "y" (Some (PyInt PropertyType.COLOR))
             (Some (PyStr "red")) None None None in
  let st := mkState (Thing.mk "t1" "lamp" "thing"
                       [EProperty x; EProperty y] [] []) [] [] in
  fst (update_property [("x", PyInt 10)] st) = Ok tt /\
  snd (update_property [("z", PyInt 1)] st) = st.
Proof.
  intros x y st.
  destruct (update_property_frame st [] x [EProperty y] "x" "z"
              (PyInt 10) (PyInt 1)) as [[Hok _] [Hsame _]].
  - discriminate.
  - discriminate.
  - reflexivity.
  - reflexivity.
  - simpl. tauto.
  - simpl. intros q [Hq | [Hq | []]]; injection Hq as <-; discriminate.
  - split; assumption.
Defined.

(** The run of the example of C9, in full. *)
Example update_property_x_10 :
  let x := Property.init "x" None (Some (PyInt 5)) None None None in
  let y := Property.init "y" (Some (PyInt PropertyType.COLOR))
             (Some (PyStr "red")) None None None in
  let st := mkState (Thing.mk "t1" "lamp" "thing"
                       [EProperty x; EProperty y] [] []) [] [] in
  update_property [("x", PyInt 10)] st
    = (Ok tt, mkState (Thing.mk "t1" "lamp" "thing"
                         [EProperty (Property.set_value x (PyInt 10)); EProperty y]
                         [] []) [] []).
Proof. reflexivity. Qed.

(** The state that [add_property(Property x, Property y, "w")] leaves:
    x can be updated, an unregistered name raises. *)
Example update_property_after_name :
  let x := Property.init "x" None (Some (PyInt 5)) None None None in
  let y := Property.init "y" None None None None None in
  let st := mkState (Thing.mk "t1" "lamp" "thing"
                       [EProperty x; EProperty y; EStr "w"] [] []) [] [] in
  update_property [("x", PyInt 10)] st
    = (Ok tt, mkState (Thing.mk "t1" "lamp" "thing"
                         [EProperty (Property.set_value x (PyInt 10));
                          EProperty y; EStr "w"] [] []) [] []) /\
  update_property [("z", PyInt 1)] st = (Raise AttributeError, st).
Proof. split; reflexivity. Qed.

(** A str left in the collection by [add_property] stops the scan. *)
Lemma update_property_str_entry (st : state) (s x : string) (v : pyval)
    (more : list entry) :
  x <> "self" ->
  properties (self st) = EStr s :: more ->
  update_property [(x, v)] st = (Raise AttributeError, st).
Proof.
  intros Hx Hprops.
  rewrite (update_property_single st x v Hx), Hprops. reflexivity.
Qed.

(** ** call_action: resolution *)

Lemma call_action_unregistered (cls : string -> option member)
    (ks : keys_semantics) (method : string) (args : nat) (st : state) :
  List.filter (fun a => String.eqb (Action.name a) method) (actions (self st)) = [] ->
  exists e,
    call_action_with cls ks method args st = (Raise e, st) /\
    (e = AttributeError \/ e = IndexError).
Proof.
  intros Hnone.
  unfold call_action_with, bind, getattr.
  destruct (cls method) as [m |].
  - unfold ret, get_self; simpl. rewrite Hnone.
    exists IndexError; split; [reflexivity | now right].
  - exists AttributeError; split; [reflexivity | now left].
Qed.

Lemma no_action_named (method : string) (acts : list Action.t) :
  (forall a, In a acts -> Action.name a <> method) ->
  List.filter (fun a => String.eqb (Action.name a) method) acts = [].
Proof.
  induction acts as [| a acts IH]; intros Hno; [reflexivity|].
  simpl.
  destruct (String.eqb_spec (Action.name a) method) as [Heq | Hne].
  - exfalso. apply (Hno a); [now left | assumption].
  - apply IH. intros b Hb. apply Hno. now right.
Qed.

(** C4: when no registered Action is named "unknown",
    [call_action("unknown", args)] raises, either AttributeError from
    [getattr(self, method)] or IndexError from [matches[0]], and leaves
    the state as it was: nothing is logged. *)
Theorem call_action_unknown (cls : string -> option member)
    (args : nat) (st : state)
    (Hno : forall a, In a (actions (self st)) -> Action.name a <> "unknown") :
  exists e,
    call_action cls "unknown" args st = (Raise e, st) /\
    (e = AttributeError \/ e = IndexError) /\
    log (snd (call_action cls "unknown" args st)) = log st.
Proof.
  destruct (call_action_unregistered cls KeysView "unknown" args st
              (no_action_named "unknown" _ Hno)) as (e & Hrun & He).
  exists e. unfold call_action. rewrite Hrun. now repeat split.
Qed.

Lemma call_action_unknown_witness :
  let th := Thing.mk "t1" "lamp" "thing" []
              [Action.init "setColor" [("color", PyInt PropertyType.COLOR)]] [] in
  let st := mkState th [[]] [] in
  exists e,
    call_action (fun _ => None) "unknown" 0%nat st = (Raise e, st) /\
    (e = AttributeError \/ e = IndexError) /\
    log (snd (call_action (fun _ => None) "unknown" 0%nat st)) = log st.
Proof.
  intros th st.
  apply (call_action_unknown (fun _ => None) 0%nat st).
  simpl. intros a [<- | []]. discriminate.
Defined.

(** ** call_action: filtering of the arguments *)

Lemma delitem_present (k : string) (d : Dict.t) :
  In k (Dict.keys d) ->
  exists d',
    Dict.delitem k d = Ok d' /\
    length d = S (length d') /\
    (forall kv, In kv d' -> In kv d) /\
    (forall kv, In kv d -> fst kv <> k -> In kv d').
Proof.
  induction d as [| [k0 v0] d IH]; simpl; intros Hin; [contradiction|].
  destruct (String.eqb_spec k k0) as [-> | Hne].
  - exists d. repeat split; auto.
    intros kv [<- | Hkv] Hk; [now simpl in Hk | assumption].
  - destruct Hin as [Hin | Hin]; [congruence|].
    destruct (IH Hin) as (d' & Hdel & Hlen & Hsub & Hkeep).
    exists ((k0, v0) :: d'). rewrite Hdel. repeat split.
    + simpl; congruence.
    + intros kv [<- | Hkv]; [now left | right; auto].
    + intros kv [<- | Hkv] Hk; [now left | right; auto].
Qed.

(** A view iterator that finds the size of its dict changed raises, with
    whatever keys it still had to produce. *)
Lemma filter_args_view_changed (l : nat) (valid : Dict.t) (used : nat)
    (pending : list string) (st : state) (d : Dict.t) :
  heap st !! l = Some d ->
  length d <> used ->
  filter_args KeysView l valid used pending st = (Raise RuntimeError, st).
Proof.
  intros Hd Hlen.
  destruct pending; simpl; unfold bind, deref; rewrite Hd;
    apply Nat.eqb_neq in Hlen; now rewrite Hlen.
Qed.

(** The loop under the view semantics: it returns when every key is in
    [valid_args]; otherwise it deletes the first key that is not, and the
    next step of the iterator raises RuntimeError. *)
Lemma filter_args_view (l : nat) (valid : Dict.t) (pending : list string) :
  forall (st : state) (d : Dict.t),
    heap st !! l = Some d ->
    (forall k, In k pending -> In k (Dict.keys d)) ->
    filter_args KeysView l valid (length d) pending st =
      match find (fun k => negb (Dict.contains k valid)) pending with
      | None => (Ok tt, st)
      | Some k =>
          match Dict.delitem k d with
          | Ok d' => (Raise RuntimeError,
                      mkState (self st) (<[l := d']> (heap st)) (log st))
          | Raise e => (Raise e, st)
          end
      end.
Proof.
  induction pending as [| k pending IH]; intros st d Hd Hin.
  - simpl. unfold bind, deref. rewrite Hd, Nat.eqb_refl. reflexivity.
  - simpl. unfold bind at 1. unfold deref at 1. rewrite Hd, Nat.eqb_refl. simpl.
    destruct (Dict.contains k valid) eqn:Hk; simpl.
    + unfold bind at 1. unfold ret at 1.
      apply IH; [assumption | intros k' Hk'; apply Hin; now right].
    + destruct (delitem_present k d (Hin k (or_introl eq_refl)))
        as (d' & Hdel & Hlen & _).
      rewrite Hdel. unfold bind, lift, store. simpl.
      apply filter_args_view_changed with (d := d').
      * simpl. apply list_lookup_insert_eq. apply lookup_lt_Some in Hd; lia.
      * lia.
Qed.

(** The loop when every key is accepted, under either semantics. *)
Lemma filter_args_all_valid (ks : keys_semantics) (l : nat) (valid : Dict.t)
    (pending : list string) (st : state) (d : Dict.t) :
  heap st !! l = Some d ->
  forallb (fun k => Dict.contains k valid) pending = true ->
  filter_args ks l valid (length d) pending st = (Ok tt, st).
Proof.
  intros Hd. induction pending as [| k pending IH]; simpl; intros Hall.
  - unfold bind, deref. rewrite Hd, Nat.eqb_refl. now destruct ks.
  - apply andb_prop in Hall as [Hk Hall].
    unfold bind at 1. unfold deref at 1. rewrite Hd, Nat.eqb_refl, Hk.
    destruct ks; simpl; unfold bind at 1, ret at 1; auto.
Qed.

Lemma valid_args_single (a : Action.t) (k : string) :
  map Property.name (Action.parameters a) = [k] ->
  py_truthy (Action.need_payload a) = false ->
  valid_args_of a = [(k, PyBool true)].
Proof.
  unfold valid_args_of. intros Hp Hn. rewrite Hn.
  destruct (Action.parameters a) as [| p [| q ps]]; try discriminate.
  simpl in *. now injection Hp as ->.
Qed.

(** With a resolvable method and a key that is not accepted, the call
    deletes the first such key from the caller's dict and raises. *)
Lemma call_action_view_rejects (cls : string -> option member)
    (method : string) (args : nat) (st : state)
    (m : member) (a : Action.t) (more : list Action.t)
    (d : Dict.t) (k : string) :
  getattr cls method st = (Ok m, st) ->
  List.filter (fun a => String.eqb (Action.name a) method) (actions (self st))
    = a :: more ->
  heap st !! args = Some d ->
  find (fun k => negb (Dict.contains k (valid_args_of a))) (Dict.keys d) = Some k ->
  exists d',
    Dict.delitem k d = Ok d' /\
    call_action cls method args st
      = (Raise RuntimeError,
         mkState (self st) (<[args := d']> (heap st)) (log st)).
Proof.
  intros Hm Ha Hd Hk.
  assert (Hin : In k (Dict.keys d)) by (apply find_some in Hk; tauto).
  destruct (delitem_present k d Hin) as (d' & Hdel & _).
  exists d'. split; [assumption|].
  unfold call_action, call_action_with.
  unfold bind at 1. rewrite Hm.
  unfold bind at 1. unfold get_self at 1. rewrite Ha.
  unfold bind at 1. unfold ret at 1.
  unfold bind at 1. unfold deref at 1. rewrite Hd.
  unfold bind at 1.
  rewrite (filter_args_view args _ (Dict.keys d) st d Hd (fun _ H => H)).
  now rewrite Hk, Hdel.
Qed.

(** With a resolvable method and only accepted keys, the member is called
    with the arguments as they are and the call is logged afterwards. *)
Lemma call_action_all_accepted (cls : string -> option member)
    (ks : keys_semantics) (method : string) (args : nat) (st : state)
    (m : member) (a : Action.t) (more : list Action.t) (d : Dict.t) :
  getattr cls method st = (Ok m, st) ->
  List.filter (fun a => String.eqb (Action.name a) method) (actions (self st))
    = a :: more ->
  heap st !! args = Some d ->
  forallb (fun k => Dict.contains k (valid_args_of a)) (Dict.keys d) = true ->
  call_action_with cls ks method args st
    = (call m d ;;;
       let! th := get_self in
       let! d' := deref args in
       logger_info (Called (str th) method d')) st.
Proof.
  intros Hm Ha Hd Hall.
  unfold call_action_with.
  unfold bind at 1. rewrite Hm.
  unfold bind at 1. unfold get_self at 1. rewrite Ha.
  unfold bind at 1. unfold ret at 1.
  unfold bind at 1. unfold deref at 1. rewrite Hd.
  unfold bind at 1.
  rewrite (filter_args_all_valid ks args _ (Dict.keys d) st d Hd Hall).
  unfold bind at 1. unfold deref at 1. rewrite Hd.
  reflexivity.
Qed.

(** The accepted names: the names of the declared parameters, and
    "payload" when the flag of the Action is true. *)
Lemma contains_setitem (k k' : string) (v : pyval) (d : Dict.t) :
  Dict.contains k (Dict.setitem k' v d) = String.eqb k k' || Dict.contains k d.
Proof.
  unfold Dict.contains.
  induction d as [| [k0 v0] d IH]; simpl; [reflexivity|].
  destruct (String.eqb_spec k' k0) as [-> | Hne]; simpl.
  - now destruct (String.eqb k k0).
  - rewrite IH. destruct (String.eqb k k0), (String.eqb k k'); reflexivity.
Qed.

Lemma contains_fold_setitem (k : string) (ps : list Property.t) (acc : Dict.t) :
  Dict.contains k
    (fold_left (fun d p => Dict.setitem (Property.name p) (PyBool true) d) ps acc)
  = Dict.contains k acc || existsb (String.eqb k) (map Property.name ps).
Proof.
  revert acc; induction ps as [| p ps IH]; intros acc; simpl.
  - now rewrite orb_false_r.
  - rewrite IH, contains_setitem.
    destruct (String.eqb k (Property.name p)), (Dict.contains k acc); reflexivity.
Qed.

Lemma contains_valid_args (a : Action.t) (k : string) :
  Dict.contains k (valid_args_of a)
  = existsb (String.eqb k) (map Property.name (Action.parameters a))
    || (py_truthy (Action.need_payload a) && String.eqb k "payload").
Proof.
  unfold valid_args_of.
  destruct (py_truthy (Action.need_payload a)); simpl.
  - rewrite contains_setitem, contains_fold_setitem. simpl.
    now rewrite orb_comm.
  - rewrite contains_fold_setitem. simpl. now rewrite orb_false_r.
Qed.

(** When the flag is true, "payload" is accepted, and a "payload"
    argument goes through to the member. The flag of an Action that
    [__init__] built is False and its setter cannot be called, so this
    needs the attribute to have been assigned directly. *)
Lemma payload_accepted (a : Action.t) :
  py_truthy (Action.need_payload a) = true ->
  Dict.contains "payload" (valid_args_of a) = true.
Proof.
  intros Hn. rewrite contains_valid_args, Hn. simpl. apply orb_true_r.
Qed.

Lemma payload_forwarded (cls : string -> option member) (ks : keys_semantics)
    (method : string) (args : nat) (st : state) (m : member)
    (a : Action.t) (more : list Action.t) (v : pyval) :
  getattr cls method st = (Ok m, st) ->
  List.filter (fun a => String.eqb (Action.name a) method) (actions (self st))
    = a :: more ->
  py_truthy (Action.need_payload a) = true ->
  heap st !! args = Some [("payload", v)] ->
  call_action_with cls ks method args st
    = (call m [("payload", v)] ;;;
       let! th := get_self in
       let! d' := deref args in
       logger_info (Called (str th) method d')) st.
Proof.
  intros Hm Ha Hn Hd.
  apply (call_action_all_accepted cls ks method args st m a more _ Hm Ha Hd).
  simpl. now rewrite (payload_accepted a Hn).
Qed.

Lemma payload_dropped_after_init (n : string) (kwargs : Dict.t) :
  existsb (String.eqb "payload") (Dict.keys kwargs) = false ->
  Dict.contains "payload" (valid_args_of (Action.init n kwargs)) = false.
Proof.
  intros Hk. rewrite contains_valid_args. simpl.
  rewrite orb_false_r, map_map. exact Hk.
Qed.

(** C1: with the first Action named "setColor" declaring the single
    parameter "color", and a callable member setColor, the call
    [call_action("setColor", {"color": "00FF00", "extra": 1})] deletes
    "extra" from the dict and then raises RuntimeError at the next step of
    the iteration over [args.keys()]: the member is not called and nothing
    is logged. *)
Theorem call_action_setColor_extra (cls : string -> option member)
    (st : state) (args : nat) (f : Dict.t -> M unit)
    (a : Action.t) (more : list Action.t)
    (Hm : cls "setColor" = Some (Callable f))
    (Ha : List.filter (fun a => String.eqb (Action.name a) "setColor")
            (actions (self st)) = a :: more)
    (Hp : map Property.name (Action.parameters a) = ["color"])
    (Hn : py_truthy (Action.need_payload a) = false)
    (Hd : heap st !! args
          = Some [("color", PyStr "00FF00"); ("extra", PyInt 1)]) :
  call_action cls "setColor" args st
    = (Raise RuntimeError,
       mkState (self st)
               (<[args := [("color", PyStr "00FF00")]]> (heap st))
               (log st)).
Proof.
  assert (Hget : getattr cls "setColor" st = (Ok (Callable f), st)).
  { unfold getattr; simpl. now rewrite Hm. }
  destruct (call_action_view_rejects cls "setColor" args st (Callable f) a more
              [("color", PyStr "00FF00"); ("extra", PyInt 1)] "extra"
              Hget Ha Hd) as (d' & Hdel & Hrun).
  - rewrite (valid_args_single a "color" Hp Hn). reflexivity.
  - simpl in Hdel. injection Hdel as <-. exact Hrun.
Qed.

Lemma call_action_setColor_extra_witness :
  let th := Thing.mk "t1" "lamp" "lamp" []
              [Action.init "setColor" [("color", PyInt PropertyType.COLOR)]] [] in
  let st := mkState th [[("color", PyStr "00FF00"); ("extra", PyInt 1)]] [] in
  let cls := fun n : string =>
               if String.eqb n "setColor"
               then Some (Callable (fun kwargs => update_property kwargs))
               else None in
  call_action cls "setColor" 0%nat st
    = (Raise RuntimeError, mkState th [[("color", PyStr "00FF00")]] []).
Proof.
  intros th st cls.
  apply (call_action_setColor_extra cls st 0%nat
           (fun kwargs => update_property kwargs)
           (Action.init "setColor" [("color", PyInt PropertyType.COLOR)]) []);
    reflexivity.
Defined.

(** *** The loop when [args.keys()] is a list of its own (Python 2) *)

Lemma delitem_filter (k : string) (d : Dict.t) :
  NoDup (Dict.keys d) ->
  In k (Dict.keys d) ->
  Dict.delitem k d
    = Ok (List.filter (fun kv => negb (String.eqb (fst kv) k)) d).
Proof.
  induction d as [| [k0 v0] d IH]; simpl; intros Hnd Hin; [contradiction|].
  apply NoDup_cons in Hnd as [Hk0 Hnd].
  destruct (String.eqb_spec k k0) as [-> | Hne].
  - rewrite String.eqb_refl. simpl. f_equal.
    symmetry. apply forallb_filter_id. apply forallb_forall.
    intros [k1 v1] Hkv. simpl.
    destruct (String.eqb_spec k1 k0) as [-> | ]; [| reflexivity].
    exfalso. apply Hk0. apply list_elem_of_In, in_map_iff. now exists (k0, v1).
  - destruct Hin as [Hin | Hin]; [congruence|].
    rewrite (IH Hnd Hin).
    destruct (String.eqb_spec k0 k) as [-> | _]; [congruence | reflexivity].
Qed.

Lemma filter_twice {A} (P Q : A -> bool) (l : list A) :
  List.filter P (List.filter Q l) = List.filter (fun x => Q x && P x) l.
Proof.
  induction l as [| x l IH]; simpl; [reflexivity|].
  destruct (Q x); simpl; [destruct (P x) |]; now rewrite IH.
Qed.

Lemma keys_filter_NoDup (P : string * pyval -> bool) (d : Dict.t) :
  NoDup (Dict.keys d) -> NoDup (Dict.keys (List.filter P d)).
Proof.
  induction d as [| kv d IH]; simpl; intros Hnd; [constructor|].
  apply NoDup_cons in Hnd as [Hk Hnd].
  destruct (P kv); simpl; [| auto].
  apply NoDup_cons. split; [| auto].
  intros Hin. apply Hk.
  apply list_elem_of_In, in_map_iff in Hin as (kv' & Hfst & Hkv').
  apply list_elem_of_In, in_map_iff. exists kv'. split; [assumption|].
  apply filter_In in Hkv'. tauto.
Qed.

(** After the loop the dict holds the entries whose key is accepted or was
    not among the keys the loop had to visit. *)
Lemma filter_args_list (l : nat) (valid : Dict.t) (used : nat)
    (pending : list string) :
  forall (st : state) (d : Dict.t),
    heap st !! l = Some d ->
    NoDup (Dict.keys d) ->
    NoDup pending ->
    (forall k, In k pending -> In k (Dict.keys d)) ->
    filter_args KeysList l valid used pending st
      = (Ok tt,
         mkState (self st)
           (<[l := List.filter
                     (fun kv => Dict.contains (fst kv) valid
                                || negb (existsb (String.eqb (fst kv)) pending))
                     d]> (heap st))
           (log st)).
Proof.
  induction pending as [| k pending IH]; intros st d Hd Hnd Hnp Hin.
  - simpl. unfold bind, deref. rewrite Hd. unfold ret. f_equal.
    rewrite forallb_filter_id.
    + rewrite list_insert_id by assumption. now destruct st.
    + apply forallb_forall. intros kv _. apply orb_true_r.
  - apply NoDup_cons in Hnp as [Hk Hnp].
    assert (Hk' : ~ In k pending) by (now rewrite <- list_elem_of_In).
    simpl. unfold bind at 1. unfold deref at 1. rewrite Hd.
    destruct (Dict.contains k valid) eqn:Hacc.
    + unfold bind at 1. unfold ret at 1.
      rewrite (IH st d Hd Hnd Hnp (fun k' H => Hin k' (or_intror H))).
      do 3 f_equal. apply filter_ext. intros [k1 v1]. simpl.
      destruct (String.eqb_spec k1 k) as [-> | _]; [| reflexivity].
      now rewrite Hacc.
    + rewrite (delitem_filter k d Hnd (Hin k (or_introl eq_refl))).
      unfold bind at 1. unfold bind at 1. unfold lift, store. simpl.
      pose proof (lookup_lt_Some _ _ _ Hd) as Hlt.
      rewrite (IH _ (List.filter (fun kv => negb (String.eqb (fst kv) k)) d)).
      * simpl. rewrite list_insert_insert_eq. do 3 f_equal.
        rewrite filter_twice. apply filter_ext. intros [k1 v1]. simpl.
        destruct (String.eqb_spec k1 k) as [-> | _]; simpl.
        -- now rewrite Hacc.
        -- reflexivity.
      * simpl. now apply list_lookup_insert_eq.
      * now apply keys_filter_NoDup.
      * assumption.
      * intros k' Hk'in. apply in_map_iff.
        destruct (proj1 (in_map_iff _ _ _) (Hin k' (or_intror Hk'in)))
          as (kv & Hfst & Hkv).
        exists kv. split; [assumption|].
        apply filter_In. split; [assumption|].
        rewrite Hfst. destruct (String.eqb_spec k' k) as [-> | _];
          [contradiction | reflexivity].
Qed.

(** Under the list semantics the call filters the caller's dict in place,
    hands the member what is left and logs the call after it returns. *)
Lemma call_action_keys_list (cls : string -> option member)
    (method : string) (args : nat) (st : state)
    (m : member) (a : Action.t) (more : list Action.t) (d : Dict.t) :
  getattr cls method st = (Ok m, st) ->
  List.filter (fun a => String.eqb (Action.name a) method) (actions (self st))
    = a :: more ->
  heap st !! args = Some d ->
  NoDup (Dict.keys d) ->
  let d' := List.filter (fun kv => Dict.contains (fst kv) (valid_args_of a)) d in
  call_action_with cls KeysList method args st
    = (call m d' ;;;
       let! th := get_self in
       let! d'' := deref args in
       logger_info (Called (str th) method d''))
        (mkState (self st) (<[args := d']> (heap st)) (log st)).
Proof.
  intros Hm Ha Hd Hnd d'.
  pose proof (lookup_lt_Some _ _ _ Hd) as Hlt.
  unfold call_action_with.
  unfold bind at 1. rewrite Hm.
  unfold bind at 1. unfold get_self at 1. rewrite Ha.
  unfold bind at 1. unfold ret at 1.
  unfold bind at 1. unfold deref at 1. rewrite Hd.
  unfold bind at 1.
  rewrite (filter_args_list args _ (length d) (Dict.keys d) st d Hd Hnd
             Hnd (fun _ H => H)).
  assert (Heq : List.filter
                  (fun kv => Dict.contains (fst kv) (valid_args_of a)
                             || negb (existsb (String.eqb (fst kv)) (Dict.keys d)))
                  d = d').
  { subst d'. apply filter_ext_in. intros [k v] Hkv. simpl.
    assert (Hex : existsb (String.eqb k) (Dict.keys d) = true).
    { apply existsb_exists. exists k. split; [| apply String.eqb_refl].
      apply in_map_iff. now exists (k, v). }
    rewrite Hex. apply orb_false_r. }
  rewrite Heq.
  unfold bind at 1. unfold deref at 1. cbn [heap].
  rewrite list_lookup_insert_eq by exact Hlt.
  reflexivity.
Qed.

(** The call of C1 under the list semantics: the member gets color alone
    and one entry is logged after it returns. *)
Lemma call_action_setColor_extra_keys_list (cls : string -> option member)
    (st : state) (args : nat) (f : Dict.t -> M unit)
    (a : Action.t) (more : list Action.t) :
  cls "setColor" = Some (Callable f) ->
  List.filter (fun a => String.eqb (Action.name a) "setColor")
    (actions (self st)) = a :: more ->
  map Property.name (Action.parameters a) = ["color"] ->
  py_truthy (Action.need_payload a) = false ->
  heap st !! args = Some [("color", PyStr "00FF00"); ("extra", PyInt 1)] ->
  call_action_with cls KeysList "setColor" args st
    = (f [("color", PyStr "00FF00")] ;;;
       let! th := get_self in
       let! d' := deref args in
       logger_info (Called (str th) "setColor" d'))
        (mkState (self st)
                 (<[args := [("color", PyStr "00FF00")]]> (heap st))
                 (log st)).
Proof.
  intros Hm Ha Hp Hn Hd.
  assert (Hget : getattr cls "setColor" st = (Ok (Callable f), st)).
  { unfold getattr; simpl. now rewrite Hm. }
  rewrite (call_action_keys_list cls "setColor" args st (Callable f) a more
             _ Hget Ha Hd).
  - rewrite (valid_args_single a "color" Hp Hn). reflexivity.
  - simpl. apply NoDup_cons. split; [| apply NoDup_singleton].
    intros Hin. apply list_elem_of_In in Hin as [Heq | []]. discriminate.
Qed.

(** *** The caller's dict after the call *)

(** C10: the filtering works on the caller's own dict, and under the view
    semantics it does not get through it: with a resolvable method and a
    key that is not accepted, the call deletes the first such key [k] from
    the dict at [args], keeps every other entry (accepted or not), and
    raises RuntimeError instead of returning. *)
Theorem call_action_filter_in_place (cls : string -> option member)
    (method : string) (args : nat) (st : state)
    (m : member) (a : Action.t) (more : list Action.t)
    (d : Dict.t) (k : string)
    (Hm : getattr cls method st = (Ok m, st))
    (Ha : List.filter (fun a => String.eqb (Action.name a) method)
            (actions (self st)) = a :: more)
    (Hd : heap st !! args = Some d)
    (Hk : find (fun k => negb (Dict.contains k (valid_args_of a))) (Dict.keys d)
          = Some k) :
  exists d' : Dict.t,
    call_action cls method args st
      = (Raise RuntimeError,
         mkState (self st) (<[args := d']> (heap st)) (log st)) /\
    <[args := d']> (heap st) !! args = Some d' /\
    Dict.delitem k d = Ok d' /\
    length d = S (length d') /\
    (forall kv, In kv d -> fst kv <> k -> In kv d') /\
    (forall kv, In kv d' -> In kv d).
Proof.
  destruct (call_action_view_rejects cls method args st m a more d k Hm Ha Hd Hk)
    as (d' & Hdel & Hrun).
  assert (Hin : In k (Dict.keys d)) by (apply find_some in Hk; tauto).
  destruct (delitem_present k d Hin) as (d'' & Hdel' & Hlen & Hsub & Hkeep).
  rewrite Hdel in Hdel'. injection Hdel' as <-.
  exists d'. repeat split; try assumption.
  apply list_lookup_insert_eq. exact (lookup_lt_Some _ _ _ Hd).
Qed.

Lemma call_action_filter_in_place_witness :
  let th := Thing.mk "t1" "lamp" "lamp" []
              [Action.init "setColor" [("color", PyInt PropertyType.COLOR)]] [] in
  let d := [("extra", PyInt 1); ("color", PyStr "00FF00"); ("more", PyInt 2)] in
  let st := mkState th [d] [] in
  let cls := fun n : string =>
               if String.eqb n "setColor"
               then Some (Callable (fun kwargs => update_property kwargs))
               else None in
  exists d' : Dict.t,
    call_action cls "setColor" 0%nat st
      = (Raise RuntimeError, mkState th (<[0%nat := d']> [d]) []) /\
    <[0%nat := d']> [d] !! 0%nat = Some d' /\
    Dict.delitem "extra" d = Ok d' /\
    length d = S (length d') /\
    (forall kv, In kv d -> fst kv <> "extra" -> In kv d') /\
    (forall kv, In kv d' -> In kv d).
Proof.
  intros th d st cls.
  apply (call_action_filter_in_place cls "setColor" 0%nat st
           (Callable (fun kwargs => update_property kwargs))
           (Action.init "setColor" [("color", PyInt PropertyType.COLOR)]) []
           d "extra"); reflexivity.
Defined.

(** The run on a dict with two keys that are not accepted: "more" is
    still in the caller's dict when the call raises. *)
Example call_action_two_extra_keys :
  let th := Thing.mk "t1" "lamp" "lamp" []
              [Action.init "setColor" [("color", PyInt PropertyType.COLOR)]] [] in
  let cls := fun n : string =>
               if String.eqb n "setColor"
               then Some (Callable (fun kwargs => update_property kwargs))
               else None in
  call_action cls "setColor" 0%nat
    (mkState th [[("extra", PyInt 1); ("color", PyStr "00FF00"); ("more", PyInt 2)]] [])
  = (Raise RuntimeError,
     mkState th [[("color", PyStr "00FF00"); ("more", PyInt 2)]] []).
Proof. reflexivity. Qed.

Lemma find_none_forallb (P : string -> bool) (l : list string) :
  find (fun k => negb (P k)) l = None -> forallb P l = true.
Proof.
  induction l as [| k l IH]; simpl; [reflexivity|].
  destruct (P k); simpl; [assumption | discriminate].
Qed.

(** So a call that returns found nothing to delete: every key of the
    caller's dict was accepted. *)
Lemma call_action_returns_all_accepted (cls : string -> option member)
    (method : string) (args : nat) (st st' : state)
    (m : member) (a : Action.t) (more : list Action.t) (d : Dict.t) :
  getattr cls method st = (Ok m, st) ->
  List.filter (fun a => String.eqb (Action.name a) method) (actions (self st))
    = a :: more ->
  heap st !! args = Some d ->
  call_action cls method args st = (Ok tt, st') ->
  forallb (fun k => Dict.contains k (valid_args_of a)) (Dict.keys d) = true.
Proof.
  intros Hm Ha Hd Hrun.
  destruct (find (fun k => negb (Dict.contains k (valid_args_of a))) (Dict.keys d))
    as [k |] eqn:Hk.
  - destruct (call_action_view_rejects cls method args st m a more d k Hm Ha Hd Hk)
      as (d' & _ & Hraise).
    rewrite Hraise in Hrun. discriminate.
  - now apply find_none_forallb.
Qed.

(** * Further properties of registration *)

(** One iteration of [add_property] on a str and on a Property. *)
Lemma add_property_cons_str (s : string) (rest : list object) (st : state) :
  add_property (Val (PyStr s) :: rest) st =
    match names_of (properties (self st)) with
    | Raise e => (Raise e, st)
    | Ok names =>
        if existsb (String.eqb s) names
        then (Ok tt, mkState (self st) (heap st)
                       (log st ++ [LogError (AlreadyRegistered s)]))
        else add_property rest
               (mkState (Thing.mk (id (self st)) (name (self st)) (kind (self st))
                           (properties (self st) ++ [EStr s])
                           (actions (self st)) (options (self st)))
                        (heap st) (log st))
    end.
Proof.
  unfold add_property; simpl.
  unfold bind, _has_property, bind, get_self, lift, ret; simpl.
  destruct (names_of (properties (self st))) as [names | e]; [| reflexivity].
  destruct (existsb (String.eqb s) names); reflexivity.
Qed.

Lemma add_property_cons_inst (p : Property.t) (rest : list object) (st : state) :
  add_property (Inst p :: rest) st =
    match names_of (properties (self st)) with
    | Raise e => (Raise e, st)
    | Ok names =>
        if existsb (String.eqb (Property.name p)) names
        then (Ok tt, mkState (self st) (heap st)
                       (log st ++ [LogError (AlreadyRegistered (Property.name p))]))
        else add_property rest
               (mkState (Thing.mk (id (self st)) (name (self st)) (kind (self st))
                           (properties (self st) ++ [EProperty p])
                           (actions (self st)) (options (self st)))
                        (heap st) (log st))
    end.
Proof.
  unfold add_property; simpl.
  unfold bind, _has_property, bind, get_self, lift, ret; simpl.
  destruct (names_of (properties (self st))) as [names | e]; [| reflexivity].
  destruct (existsb (String.eqb (Property.name p)) names); reflexivity.
Qed.

(** X1: whatever the items and whether it returns or raises,
    [add_property] only appends: the elements already in the collection
    stay where they are, the log only grows, by error entries, and the
    identity of the Thing, its actions and options and the dicts of the
    callers are untouched. *)
Theorem add_property_appends_only (items : list object) (st : state) :
  let st' := snd (add_property items st) in
  (exists added, properties (self st') = (properties (self st) ++ added)%list) /\
  (exists errors,
      log st' = (log st ++ errors)%list /\
      forall e, In e errors -> exists m, e = LogError m) /\
  id (self st') = id (self st) /\
  name (self st') = name (self st) /\
  kind (self st') = kind (self st) /\
  actions (self st') = actions (self st) /\
  options (self st') = options (self st) /\
  heap st' = heap st.
Proof.
  revert st. induction items as [| o items IH]; intros st.
  - simpl. repeat split; try reflexivity.
    + exists []. now rewrite app_nil_r.
    + exists []. split; [now rewrite app_nil_r | intros e []].
  - assert (Hdone : forall m,
      let st' := mkState (self st) (heap st) (log st ++ [LogError m]) in
      (exists added, properties (self st') = (properties (self st) ++ added)%list) /\
      (exists errors, log st' = (log st ++ errors)%list /\
                      forall e, In e errors -> exists m, e = LogError m) /\
      id (self st') = id (self st) /\ name (self st') = name (self st) /\
      kind (self st') = kind (self st) /\ actions (self st') = actions (self st) /\
      options (self st') = options (self st) /\ heap st' = heap st).
    { intros m. simpl. repeat split; try reflexivity.
      - exists []. now rewrite app_nil_r.
      - exists [LogError m]. split; [reflexivity|].
        intros e [<- | []]. now exists m. }
    assert (Hskip : forall m,
      let st' := snd (add_property items
                        (mkState (self st) (heap st) (log st ++ [LogError m]))) in
      (exists added, properties (self st') = (properties (self st) ++ added)%list) /\
      (exists errors, log st' = (log st ++ errors)%list /\
                      forall e, In e errors -> exists m, e = LogError m) /\
      id (self st') = id (self st) /\ name (self st') = name (self st) /\
      kind (self st') = kind (self st) /\ actions (self st') = actions (self st) /\
      options (self st') = options (self st) /\ heap st' = heap st).
    { intros m.
      destruct (IH (mkState (self st) (heap st) (log st ++ [LogError m])))
        as (Hp & (errors & Hl & He) & Hrest).
      simpl in *. split; [assumption|]. split; [| assumption].
      exists (LogError m :: errors). split.
      - rewrite Hl, <- app_assoc. reflexivity.
      - intros e [<- | Hin]; [now exists m | auto]. }
    assert (Happ : forall item,
      let st' := snd (add_property items
                        (mkState (Thing.mk (id (self st)) (name (self st))
                                    (kind (self st))
                                    (properties (self st) ++ [item])
                                    (actions (self st)) (options (self st)))
                                 (heap st) (log st))) in
      (exists added, properties (self st') = (properties (self st) ++ added)%list) /\
      (exists errors, log st' = (log st ++ errors)%list /\
                      forall e, In e errors -> exists m, e = LogError m) /\
      id (self st') = id (self st) /\ name (self st') = name (self st) /\
      kind (self st') = kind (self st) /\ actions (self st') = actions (self st) /\
      options (self st') = options (self st) /\ heap st' = heap st).
    { intros item.
      destruct (IH (mkState (Thing.mk (id (self st)) (name (self st))
                               (kind (self st))
                               (properties (self st) ++ [item])
                               (actions (self st)) (options (self st)))
                            (heap st) (log st)))
        as ((added & Hp) & Hl & Hrest).
      simpl in *. split; [| split; assumption].
      exists (item :: added). rewrite Hp, <- app_assoc. reflexivity. }
    assert (Hsame :
      (exists added, properties (self st) = (properties (self st) ++ added)%list) /\
      (exists errors, log st = (log st ++ errors)%list /\
                      forall e, In e errors -> exists m, e = LogError m) /\
      id (self st) = id (self st) /\ name (self st) = name (self st) /\
      kind (self st) = kind (self st) /\ actions (self st) = actions (self st) /\
      options (self st) = options (self st) /\ heap st = heap st).
    { repeat split; try reflexivity.
      - exists []. now rewrite app_nil_r.
      - exists []. split; [now rewrite app_nil_r | intros e []]. }
    destruct o as [[| b | z | s | m | fl] | p | a];
      try (rewrite add_property_invalid_continues by exact I; apply Hskip).
    + rewrite add_property_cons_str.
      destruct (names_of (properties (self st))) as [names | e]; [| exact Hsame].
      destruct (existsb (String.eqb s) names); [apply Hdone | apply Happ].
    + rewrite add_property_cons_inst.
      destruct (names_of (properties (self st))) as [names | e]; [| exact Hsame].
      destruct (existsb (String.eqb (Property.name p)) names);
        [apply Hdone | apply Happ].
Qed.

Lemma existsb_eqb_true (k : string) (l : list string) :
  In k l -> existsb (String.eqb k) l = true.
Proof.
  intros Hin. apply existsb_exists. exists k. split; [assumption|].
  apply String.eqb_refl.
Qed.

Lemma existsb_eqb_false (k : string) (l : list string) :
  ~ In k l -> existsb (String.eqb k) l = false.
Proof.
  intros Hnin. destruct (existsb (String.eqb k) l) eqn:He; [| reflexivity].
  exfalso. apply Hnin. apply existsb_exists in He as (k' & Hin & Heq).
  apply String.eqb_eq in Heq. now subst.
Qed.

(** X2: a collection of Property instances with pairwise distinct names
    stays one under [add_property], as long as no item of the batch is a
    str: the call returns, what it appends are Property instances taken
    from the batch, and the names are still pairwise distinct. *)
Theorem add_property_instances_unique (items : list object) (st : state)
    (props : list Property.t)
    (Hprops : properties (self st) = map EProperty props)
    (Hnd : NoDup (map Property.name props))
    (Hitems : forall s, ~ In (Val (PyStr s)) items) :
  exists props' : list Property.t,
    fst (add_property items st) = Ok tt /\
    properties (self (snd (add_property items st)))
      = map EProperty (props ++ props') /\
    NoDup (map Property.name (props ++ props')) /\
    (forall p, In p props' -> In (Inst p) items).
Proof.
  revert st props Hprops Hnd.
  induction items as [| o items IH]; intros st props Hprops Hnd.
  - exists []. simpl. rewrite app_nil_r. repeat split; try assumption.
    intros p [].
  - assert (Hrest : forall s, ~ In (Val (PyStr s)) items).
    { intros s Hin. apply (Hitems s). now right. }
    assert (Hskip : forall m,
      exists props' : list Property.t,
        fst (add_property items
               (mkState (self st) (heap st) (log st ++ [LogError m]))) = Ok tt /\
        properties (self (snd (add_property items
               (mkState (self st) (heap st) (log st ++ [LogError m])))))
          = map EProperty (props ++ props') /\
        NoDup (map Property.name (props ++ props')) /\
        (forall p, In p props' -> In (Inst p) (o :: items))).
    { intros m.
      destruct (IH Hrest (mkState (self st) (heap st) (log st ++ [LogError m]))
                  props Hprops Hnd) as (props' & Hok & Hp & Hn & Hfrom).
      exists props'. repeat split; try assumption.
      intros p Hp'. right. auto. }
    destruct o as [[| b | z | s | m | fl] | p | a];
      try (rewrite add_property_invalid_continues by exact I; apply Hskip).
    + exfalso. apply (Hitems s). now left.
    + rewrite add_property_cons_inst, Hprops, names_of_instances.
      destruct (existsb (String.eqb (Property.name p)) (map Property.name props))
        eqn:Hdup.
      * exists []. simpl. rewrite app_nil_r. repeat split; try assumption.
        intros q [].
      * assert (Hfresh : ~ In (Property.name p) (map Property.name props)).
        { intros Hin. apply existsb_eqb_true in Hin. congruence. }
        destruct (IH Hrest
                    (mkState (Thing.mk (id (self st)) (name (self st))
                                (kind (self st))
                                (map EProperty props ++ [EProperty p])
                                (actions (self st)) (options (self st)))
                             (heap st) (log st))
                    (props ++ [p])%list)
          as (props' & Hok & Hp & Hn & Hfrom).
        -- simpl. now rewrite map_app.
        -- rewrite map_app. apply NoDup_app. repeat split; try assumption.
           ++ intros n Hn Hp. simpl in Hp.
              apply list_elem_of_In in Hp as [<- | []].
              apply Hfresh. now apply list_elem_of_In.
           ++ apply NoDup_singleton.
        -- exists (p :: props').
           rewrite <- app_assoc in Hp, Hn. simpl in Hp, Hn.
           repeat split; try assumption.
           intros q [<- | Hq]; [now left | right; auto].
Qed.

Lemma add_property_instances_unique_witness :
  let a := Property.init "a" None None None None None in
  let b := Property.init "b" None None None None None in
  let st := mkState (Thing.mk "t1" "lamp" "thing" [EProperty a] [] []) [] [] in
  exists props' : list Property.t,
    fst (add_property [Val (PyInt 42); Inst b; Inst a; Inst b] st) = Ok tt /\
    properties (self (snd (add_property
                             [Val (PyInt 42); Inst b; Inst a; Inst b] st)))
      = map EProperty ([a] ++ props') /\
    NoDup (map Property.name ([a] ++ props')) /\
    (forall p, In p props' ->
               In (Inst p) [Val (PyInt 42); Inst b; Inst a; Inst b]).
Proof.
  intros a b st.
  apply (add_property_instances_unique
           [Val (PyInt 42); Inst b; Inst a; Inst b] st [a]).
  - reflexivity.
  - apply NoDup_singleton.
  - intros s [H | [H | [H | [H | []]]]]; discriminate.
Defined.

(** X3: a Property whose name is already registered is reported and ends
    the batch; the items after it are not looked at, valid or not. *)
Theorem add_property_duplicate_aborts (st : state) (props : list Property.t)
    (p : Property.t) (rest : list object)
    (Hprops : properties (self st) = map EProperty props)
    (Hdup : In (Property.name p) (map Property.name props)) :
  add_property (Inst p :: rest) st
    = (Ok tt, mkState (self st) (heap st)
                (log st ++ [LogError (AlreadyRegistered (Property.name p))])).
Proof.
  rewrite add_property_cons_inst, Hprops, names_of_instances.
  now rewrite (existsb_eqb_true _ _ Hdup).
Qed.

Lemma add_property_duplicate_aborts_witness :
  let a := Property.init "a" None None None None None in
  let b := Property.init "b" None None None None None in
  let st := mkState (Thing.mk "t1" "lamp" "thing" [EProperty a] [] []) [] [] in
  add_property [Inst (Property.set_value a (PyInt 7)); Inst b] st
    = (Ok tt, mkState (self st) (heap st) [LogError (AlreadyRegistered "a")]).
Proof.
  intros a b st.
  apply (add_property_duplicate_aborts st [a]
           (Property.set_value a (PyInt 7)) [Inst b]).
  - reflexivity.
  - simpl. now left.
Defined.

Lemma data_of_str (props : list Property.t) (s : string) (more : list entry) :
  forall acc,
    data_of (map EProperty props ++ EStr s :: more) acc = Raise AttributeError.
Proof.
  induction props as [| p props IH]; intros acc; simpl; [reflexivity | apply IH].
Qed.

Lemma models_of_str (props : list Property.t) (s : string) (more : list entry) :
  models_of (map EProperty props ++ EStr s :: more) = Raise AttributeError.
Proof.
  induction props as [| p props IH]; simpl; [reflexivity | now rewrite IH].
Qed.

(** X4: registering a property by a name that is not taken returns, and
    leaves the str itself at the end of the collection; from then on
    [get_data], [get_model], [_has_property] and any further
    [add_property] of a str or a Property raise AttributeError, without a
    change of state. *)
Theorem add_property_name_breaks (st : state) (props : list Property.t)
    (s : string)
    (Hprops : properties (self st) = map EProperty props)
    (Hfresh : ~ In s (map Property.name props)) :
  let st' := snd (add_property [Val (PyStr s)] st) in
  fst (add_property [Val (PyStr s)] st) = Ok tt /\
  properties (self st') = (map EProperty props ++ [EStr s])%list /\
  get_data st' = (Raise AttributeError, st') /\
  get_model st' = (Raise AttributeError, st') /\
  (forall n, _has_property n st' = (Raise AttributeError, st')) /\
  (forall s' rest,
      add_property (Val (PyStr s') :: rest) st' = (Raise AttributeError, st')) /\
  (forall p rest,
      add_property (Inst p :: rest) st' = (Raise AttributeError, st')).
Proof.
  cbv zeta.
  rewrite (add_property_cons_str s [] st), Hprops, names_of_instances.
  rewrite (existsb_eqb_false _ _ Hfresh).
  change (add_property [] ?x) with (Ok tt, x). cbn [fst snd].
  repeat split.
  - unfold get_data, bind, get_self, lift; simpl. now rewrite data_of_str.
  - unfold get_model, bind, get_self, lift; simpl. now rewrite models_of_str.
  - intros n. unfold _has_property, bind, get_self, lift; simpl.
    now rewrite names_of_str.
  - intros s' rest. rewrite add_property_cons_str. simpl.
    now rewrite names_of_str.
  - intros p rest. rewrite add_property_cons_inst. simpl.
    now rewrite names_of_str.
Qed.

Lemma add_property_name_breaks_witness :
  let a := Property.init "a" None None None None None in
  let st := mkState (Thing.mk "t1" "lamp" "thing" [EProperty a] [] []) [] [] in
  let st' := snd (add_property [Val (PyStr "temp")] st) in
  fst (add_property [Val (PyStr "temp")] st) = Ok tt /\
  properties (self st') = (map EProperty [a] ++ [EStr "temp"])%list /\
  get_data st' = (Raise AttributeError, st') /\
  get_model st' = (Raise AttributeError, st') /\
  (forall n, _has_property n st' = (Raise AttributeError, st')) /\
  (forall s' rest,
      add_property (Val (PyStr s') :: rest) st' = (Raise AttributeError, st')) /\
  (forall p rest,
      add_property (Inst p :: rest) st' = (Raise AttributeError, st')).
Proof.
  intros a st.
  apply (add_property_name_breaks st [a] "temp").
  - reflexivity.
  - simpl. intros [H | []]. discriminate.
Defined.

(** * Further properties of reading and updating *)

Lemma setitem_fresh (k : string) (v : pyval) (d : Dict.t) :
  ~ In k (Dict.keys d) -> Dict.setitem k v d = (d ++ [(k, v)])%list.
Proof.
  induction d as [| [k0 v0] d IH]; simpl; intros Hk; [reflexivity|].
  destruct (String.eqb_spec k k0) as [-> | _].
  - exfalso. apply Hk. now left.
  - rewrite IH; [reflexivity|]. intros Hin. apply Hk. now right.
Qed.

Lemma data_of_instances (props : list Property.t) :
  forall acc : Dict.t,
    NoDup (Dict.keys acc ++ map Property.name props) ->
    data_of (map EProperty props) acc
      = Ok (acc ++ map (fun p => (Property.name p, Property.value p)) props)%list.
Proof.
  induction props as [| p props IH]; intros acc Hnd; simpl.
  - now rewrite app_nil_r.
  - rewrite setitem_fresh.
    + rewrite IH.
      * now rewrite <- app_assoc.
      * unfold Dict.keys in *. rewrite map_app, <- app_assoc. exact Hnd.
    + apply NoDup_app in Hnd as (_ & Hdisj & _).
      intros Hin. apply (Hdisj (Property.name p)).
      * now apply list_elem_of_In.
      * simpl. apply list_elem_of_In. now left.
Qed.

Lemma getitem_pairs (props : list Property.t) (p : Property.t) :
  NoDup (map Property.name props) ->
  In p props ->
  Dict.getitem (Property.name p)
    (map (fun p => (Property.name p, Property.value p)) props)
  = Ok (Property.value p).
Proof.
  induction props as [| q props IH]; simpl; intros Hnd Hin; [contradiction|].
  apply NoDup_cons in Hnd as [Hq Hnd].
  destruct (String.eqb_spec (Property.name p) (Property.name q)) as [Heq | Hne].
  - destruct Hin as [-> | Hin]; [reflexivity|].
    exfalso. apply Hq. rewrite <- Heq.
    apply list_elem_of_In, in_map. exact Hin.
  - destruct Hin as [-> | Hin]; [congruence | auto].
Qed.

Lemma get_data_instances (st : state) (props : list Property.t) :
  properties (self st) = map EProperty props ->
  NoDup (map Property.name props) ->
  get_data st
    = (Ok (map (fun p => (Property.name p, Property.value p)) props), st).
Proof.
  intros Hprops Hnd.
  unfold get_data, bind, get_self, lift; simpl.
  now rewrite Hprops, (data_of_instances props [] Hnd).
Qed.

(** X5: on a collection of Property instances with distinct names,
    [get_data] returns, changes nothing, and its dict has one item per
    Property, in the order of the collection, with the name as key and
    the current value as value: looking a registered name up gives the
    value of that Property. *)
Theorem get_data_values (st : state) (props : list Property.t)
    (Hprops : properties (self st) = map EProperty props)
    (Hnd : NoDup (map Property.name props)) :
  exists data : Dict.t,
    get_data st = (Ok data, st) /\
    Dict.keys data = map Property.name props /\
    map snd data = map Property.value props /\
    (forall p, In p props ->
               Dict.getitem (Property.name p) data = Ok (Property.value p)).
Proof.
  exists (map (fun p => (Property.name p, Property.value p)) props).
  split; [now apply get_data_instances|].
  unfold Dict.keys. rewrite !map_map. simpl.
  repeat split. intros p Hp. now apply getitem_pairs.
Qed.

Lemma get_data_values_witness :
  let x := Property.init "x" None (Some (PyInt 5)) None None None in
  let y := Property.init "y" (Some (PyInt PropertyType.COLOR))
             (Some (PyStr "red")) None None None in
  let st := mkState (Thing.mk "t1" "lamp" "thing"
                       [EProperty x; EProperty y] [] []) [] [] in
  exists data : Dict.t,
    get_data st = (Ok data, st) /\
    Dict.keys data = map Property.name [x; y] /\
    map snd data = map Property.value [x; y] /\
    (forall p, In p [x; y] ->
               Dict.getitem (Property.name p) data = Ok (Property.value p)).
Proof.
  intros x y st.
  apply (get_data_values st [x; y]).
  - reflexivity.
  - simpl. apply NoDup_cons. split; [| apply NoDup_singleton].
    intros Hin. apply list_elem_of_In in Hin as [Heq | []]. discriminate.
Defined.

(** X6: a Property instance registered under a name that is not taken is
    appended as it is; [_has_property] then answers True for its name and
    the dict of [get_data] has its value under its name. *)
Theorem add_property_instance_registered (st : state)
    (props : list Property.t) (p : Property.t)
    (Hprops : properties (self st) = map EProperty props)
    (Hnd : NoDup (map Property.name props))
    (Hfresh : ~ In (Property.name p) (map Property.name props)) :
  let st' := snd (add_property [Inst p] st) in
  fst (add_property [Inst p] st) = Ok tt /\
  properties (self st') = map EProperty (props ++ [p]) /\
  log st' = log st /\
  _has_property (Property.name p) st' = (Ok true, st') /\
  exists data : Dict.t,
    get_data st' = (Ok data, st') /\
    Dict.getitem (Property.name p) data = Ok (Property.value p).
Proof.
  cbv zeta.
  rewrite (add_property_cons_inst p [] st), Hprops, names_of_instances.
  rewrite (existsb_eqb_false _ _ Hfresh).
  change (add_property [] ?x) with (Ok tt, x). cbn [fst snd].
  assert (Hnd' : NoDup (map Property.name (props ++ [p]))).
  { rewrite map_app. apply NoDup_app. repeat split; try assumption.
    - intros n Hn Hp. simpl in Hp. apply list_elem_of_In in Hp as [<- | []].
      apply Hfresh. now apply list_elem_of_In.
    - apply NoDup_singleton. }
  repeat split.
  - simpl. now rewrite map_app.
  - unfold _has_property, bind, get_self, lift, ret; simpl.
    change [EProperty p] with (map EProperty [p]).
    rewrite <- (map_app EProperty props [p]), names_of_instances.
    rewrite existsb_eqb_true; [reflexivity|].
    rewrite map_app. apply in_or_app. right. now left.
  - eexists. split.
    + apply get_data_instances with (props := (props ++ [p])%list);
        [simpl; now rewrite map_app | exact Hnd'].
    + apply getitem_pairs; [exact Hnd' | apply in_or_app; right; now left].
Qed.

Lemma add_property_instance_registered_witness :
  let a := Property.init "a" None None None None None in
  let b := Property.init "b" (Some (PyInt PropertyType.STRING))
             (Some (PyStr "on")) None None None in
  let st := mkState (Thing.mk "t1" "lamp" "thing" [EProperty a] [] []) [] [] in
  let st' := snd (add_property [Inst b] st) in
  fst (add_property [Inst b] st) = Ok tt /\
  properties (self st') = map EProperty ([a] ++ [b]) /\
  log st' = log st /\
  _has_property (Property.name b) st' = (Ok true, st') /\
  exists data : Dict.t,
    get_data st' = (Ok data, st') /\
    Dict.getitem (Property.name b) data = Ok (Property.value b).
Proof.
  intros a b st.
  apply (add_property_instance_registered st [a] b).
  - reflexivity.
  - apply NoDup_singleton.
  - simpl. intros [H | []]. discriminate.
Defined.

Lemma update_property_run (st : state) (props : list Property.t)
    (x : string) (v : pyval) :
  x <> "self" ->
  properties (self st) = map EProperty props ->
  In x (map Property.name props) ->
  exists (i : nat) (p : Property.t),
    props !! i = Some p /\
    Property.name p = x /\
    update_property [(x, v)] st
      = (Ok tt,
         mkState (Thing.mk (id (self st)) (name (self st)) (kind (self st))
                    (map EProperty (<[i := Property.set_value p v]> props))
                    (actions (self st)) (options (self st)))
                 (heap st) (log st)).
Proof.
  intros Hself Hprops Hx.
  destruct (update_first_present x v props Hx) as (i & p & Hi & Hp & _ & Hup).
  exists i, p. repeat split; try assumption.
  now rewrite (update_property_single st x v Hself), Hprops, Hup.
Qed.

Lemma map_insert_same {B : Type} (f : Property.t -> B)
    (props : list Property.t) (i : nat) (p q : Property.t) :
  props !! i = Some p -> f q = f p ->
  map f (<[i := q]> props) = map f props.
Proof.
  revert i; induction props as [| r props IH]; intros [| i] Hi Hf;
    simpl in *; try discriminate.
  - injection Hi as ->. now rewrite Hf.
  - now rewrite IH.
Qed.

Lemma getitem_pairs_insert_ne (props : list Property.t) (i : nat)
    (p q : Property.t) (y : string) :
  props !! i = Some p ->
  Property.name q = Property.name p ->
  y <> Property.name p ->
  Dict.getitem y
    (map (fun p => (Property.name p, Property.value p)) (<[i := q]> props))
  = Dict.getitem y
      (map (fun p => (Property.name p, Property.value p)) props).
Proof.
  revert i; induction props as [| r props IH]; intros [| i] Hi Hq Hy;
    simpl in *; try discriminate.
  - injection Hi as ->. rewrite Hq.
    destruct (String.eqb_spec y (Property.name p)); [contradiction | reflexivity].
  - destruct (String.eqb y (Property.name r)); [reflexivity | now apply IH].
Qed.

(** X7: after [update_property(x=v)] on a collection of Property instances
    with distinct names, for a keyword [x] other than self, [get_data]
    gives [v] under [x], what it gave before under every other name, and
    the same keys in the same order. *)
Theorem update_then_get_data (st : state) (props : list Property.t)
    (x : string) (v : pyval)
    (Hself : x <> "self")
    (Hprops : properties (self st) = map EProperty props)
    (Hnd : NoDup (map Property.name props))
    (Hx : In x (map Property.name props)) :
  let st' := snd (update_property [(x, v)] st) in
  exists data data' : Dict.t,
    get_data st = (Ok data, st) /\
    get_data st' = (Ok data', st') /\
    Dict.getitem x data' = Ok v /\
    (forall y, y <> x -> Dict.getitem y data' = Dict.getitem y data) /\
    Dict.keys data' = Dict.keys data.
Proof.
  cbv zeta.
  destruct (update_property_run st props x v Hself Hprops Hx)
    as (i & p & Hi & Hp & Hrun).
  rewrite Hrun. cbn [snd].
  pose proof (map_insert_same Property.name props i p
                (Property.set_value p v) Hi eq_refl) as Hnames.
  assert (Hnd' : NoDup (map Property.name
                          (<[i := Property.set_value p v]> props)))
    by now rewrite Hnames.
  exists (map (fun p => (Property.name p, Property.value p)) props),
         (map (fun p => (Property.name p, Property.value p))
              (<[i := Property.set_value p v]> props)).
  split; [now apply get_data_instances|].
  split; [now apply get_data_instances|].
  repeat split.
  - rewrite <- Hp.
    change (Property.name p) with (Property.name (Property.set_value p v)).
    change (Ok v) with (Ok (Property.value (Property.set_value p v))).
    apply getitem_pairs; [exact Hnd'|].
    apply list_elem_of_In, list_elem_of_lookup. exists i.
    apply list_lookup_insert_eq. exact (lookup_lt_Some _ _ _ Hi).
  - intros y Hy. apply getitem_pairs_insert_ne with (p := p);
      [assumption | reflexivity | congruence].
  - unfold Dict.keys. rewrite !map_map. simpl. exact Hnames.
Qed.

Lemma update_then_get_data_witness :
  let x := Property.init "x" None (Some (PyInt 5)) None None None in
  let y := Property.init "y" (Some (PyInt PropertyType.COLOR))
             (Some (PyStr "red")) None None None in
  let st := mkState (Thing.mk "t1" "lamp" "thing"
                       [EProperty x; EProperty y] [] []) [] [] in
  let st' := snd (update_property [("x", PyInt 10)] st) in
  exists data data' : Dict.t,
    get_data st = (Ok data, st) /\
    get_data st' = (Ok data', st') /\
    Dict.getitem "x" data' = Ok (PyInt 10) /\
    (forall y, y <> "x" -> Dict.getitem y data' = Dict.getitem y data) /\
    Dict.keys data' = Dict.keys data.
Proof.
  intros x y st.
  apply (update_then_get_data st [x; y] "x" (PyInt 10)).
  - discriminate.
  - reflexivity.
  - simpl. apply NoDup_cons. split; [| apply NoDup_singleton].
    intros Hin. apply list_elem_of_In in Hin as [Heq | []]. discriminate.
  - simpl. now left.
Defined.

Lemma update_property_loop_shape (kwargs : Dict.t) :
  forall (st : state) (props : list Property.t),
    properties (self st) = map EProperty props ->
    exists props' : list Property.t,
      update_property_loop kwargs st
        = (Ok tt,
           mkState (Thing.mk (id (self st)) (name (self st)) (kind (self st))
                      (map EProperty props')
                      (actions (self st)) (options (self st)))
                   (heap st) (log st)) /\
      length props' = length props /\
      map Property.name props' = map Property.name props /\
      map Property.type props' = map Property.type props /\
      map Property.range props' = map Property.range props /\
      map Property.unit props' = map Property.unit props /\
      map Property.description props' = map Property.description props.
Proof.
  induction kwargs as [| [x v] kwargs IH]; intros st props Hprops.
  - exists props. simpl. unfold ret. rewrite <- Hprops.
    destruct st as [[i n k ps acts opts] h lg]. now repeat split.
  - assert (Hstep : exists props1 : list Property.t,
              update_first x v (map EProperty props) = Ok (map EProperty props1) /\
              length props1 = length props /\
              map Property.name props1 = map Property.name props /\
              map Property.type props1 = map Property.type props /\
              map Property.range props1 = map Property.range props /\
              map Property.unit props1 = map Property.unit props /\
              map Property.description props1 = map Property.description props).
    { destruct (in_dec string_dec x (map Property.name props)) as [Hx | Hx].
      - destruct (update_first_present x v props Hx)
          as (i & p & Hi & _ & _ & Hup).
        exists (<[i := Property.set_value p v]> props).
        split; [exact Hup|]. split; [apply length_insert|].
        repeat split; now apply map_insert_same with (p := p).
      - exists props. split; [now apply update_first_absent | now repeat split]. }
    destruct Hstep as (props1 & Hup & Hlen & Hn & Ht & Hr & Hu & Hd).
    destruct (IH (mkState (Thing.mk (id (self st)) (name (self st))
                             (kind (self st)) (map EProperty props1)
                             (actions (self st)) (options (self st)))
                          (heap st) (log st)) props1 eq_refl)
      as (props' & Hrun & Hlen' & Hn' & Ht' & Hr' & Hu' & Hd').
    exists props'. split.
    + simpl. unfold bind at 1. unfold get_self at 1.
      unfold bind at 1. unfold lift at 1. rewrite Hprops, Hup.
      unfold bind at 1. unfold set_self at 1.
      exact Hrun.
    + repeat split; congruence.
Qed.

(** X8: on a collection of Property instances, [update_property] with
    keyword arguments none of which is named self returns and changes
    values only: the collection still holds Property instances, as many
    and in the same order, each with the name, type, range, unit and
    description it had; the identity and options of the Thing, the dicts
    of the callers and the log are as before. No value is checked
    against the type or the range. *)
Theorem update_property_keeps_shape (kwargs : Dict.t) (st : state)
    (props : list Property.t)
    (Hself : Dict.contains "self" kwargs = false)
    (Hprops : properties (self st) = map EProperty props) :
  fst (update_property kwargs st) = Ok tt /\
  (exists props' : list Property.t,
      properties (self (snd (update_property kwargs st)))
        = map EProperty props' /\
      length props' = length props /\
      map Property.name props' = map Property.name props /\
      map Property.type props' = map Property.type props /\
      map Property.range props' = map Property.range props /\
      map Property.unit props' = map Property.unit props /\
      map Property.description props' = map Property.description props) /\
  id (self (snd (update_property kwargs st))) = id (self st) /\
  name (self (snd (update_property kwargs st))) = name (self st) /\
  kind (self (snd (update_property kwargs st))) = kind (self st) /\
  options (self (snd (update_property kwargs st))) = options (self st) /\
  heap (snd (update_property kwargs st)) = heap st /\
  log (snd (update_property kwargs st)) = log st.
Proof.
  unfold update_property. rewrite Hself.
  destruct (update_property_loop_shape kwargs st props Hprops)
    as (props' & Hrun & Hshape).
  rewrite Hrun. cbn [fst snd self properties id name kind options heap log].
  split; [reflexivity|]. split; [| now repeat split].
  exists props'. now split.
Qed.

Lemma update_property_keeps_shape_witness :
  let x := Property.init "x" None (Some (PyInt 5)) None None None in
  let y := Property.init "y" (Some (PyInt PropertyType.COLOR))
             (Some (PyStr "red")) None None None in
  let st := mkState (Thing.mk "t1" "lamp" "thing"
                       [EProperty x; EProperty y] [] []) [] [] in
  let kwargs := [("y", PyInt 3); ("z", PyNone); ("x", PyStr "high")] in
  fst (update_property kwargs st) = Ok tt /\
  (exists props' : list Property.t,
      properties (self (snd (update_property kwargs st)))
        = map EProperty props' /\
      length props' = length [x; y] /\
      map Property.name props' = map Property.name [x; y] /\
      map Property.type props' = map Property.type [x; y] /\
      map Property.range props' = map Property.range [x; y] /\
      map Property.unit props' = map Property.unit [x; y] /\
      map Property.description props' = map Property.description [x; y]) /\
  id (self (snd (update_property kwargs st))) = id (self st) /\
  name (self (snd (update_property kwargs st))) = name (self st) /\
  kind (self (snd (update_property kwargs st))) = kind (self st) /\
  options (self (snd (update_property kwargs st))) = options (self st) /\
  heap (snd (update_property kwargs st)) = heap st /\
  log (snd (update_property kwargs st)) = log st.
Proof.
  intros x y st kwargs.
  apply (update_property_keeps_shape kwargs st [x; y]); reflexivity.
Defined.

Lemma update_first_twice (x : string) (v w : pyval) (props : list entry) :
  match update_first x v props with
  | Ok props' =>
      exists props'',
        update_first x w props' = Ok props'' /\
        update_first x w props = Ok props''
  | Raise e => update_first x w props = Raise e
  end.
Proof.
  induction props as [| e props IH]; simpl; [now exists []|].
  destruct e as [s | p]; [reflexivity|].
  destruct (String.eqb x (Property.name p)) eqn:Hx; simpl.
  - rewrite Hx. eexists. split; reflexivity.
  - destruct (update_first x v props) as [props' | e]; simpl.
    + destruct IH as (props'' & H1 & H2). rewrite Hx, H1, H2.
      eexists. split; reflexivity.
    + now rewrite IH.
Qed.

(** X9: the last write wins. [update_property(x=v)] followed by
    [update_property(x=w)] is [update_property(x=w)] alone, in the result
    and in the state, whatever the collection holds. *)
Theorem update_property_overwrite (st : state) (x : string) (v w : pyval) :
  (update_property [(x, v)] ;;; update_property [(x, w)]) st
    = update_property [(x, w)] st.
Proof.
  destruct (string_dec x "self") as [-> | Hx].
  - reflexivity.
  - unfold bind at 1.
    rewrite !(update_property_single st x _ Hx).
    pose proof (update_first_twice x v w (properties (self st))) as Htwice.
    destruct (update_first x v (properties (self st))) as [props' | e].
    + destruct Htwice as (props'' & H1 & H2).
      rewrite (update_property_single _ x w Hx). cbn [self properties].
      now rewrite H1, H2.
    + now rewrite Htwice.
Qed.

(** * Further properties of add_action *)

(** X10: [add_action] always returns. It appends, in the order of the
    batch, [Action(s)] without parameters for a str [s] and the Action
    itself for an Action, and logs one error for every other item; a name
    that is already registered is appended again. Nothing else changes. *)
Theorem add_action_appends (items : list object) (st : state) :
  add_action items st
    = (Ok tt,
       mkState
         (Thing.mk (id (self st)) (name (self st)) (kind (self st))
            (properties (self st))
            (actions (self st) ++
             flat_map (fun o => match o with
                                | Val (PyStr s) => [Action.init s []]
                                | ActInst a => [a]
                                | _ => []
                                end) items)
            (options (self st)))
         (heap st)
         (log st ++
          flat_map (fun o => match o with
                             | Val (PyStr _) | ActInst _ => []
                             | _ => [LogError (InvalidAction o)]
                             end) items)).
Proof.
  revert st. induction items as [| o items IH]; intros st.
  - simpl. unfold ret. rewrite !app_nil_r.
    now destruct st as [[i n k ps acts opts] h lg].
  - cbn [add_action flat_map]. unfold bind at 1.
    destruct o as [[| b | z | s | m | fl] | p | a]; simpl;
      rewrite IH; simpl; now rewrite <- ?app_assoc.
Qed.

(** * Further properties of Action and of dispatch *)

(** X11: the names that [call_action] accepts for an Action built by
    [Action(n, k1=t1, ...)] are exactly the keywords of the construction;
    "payload" is accepted only if it was one of them. *)
Theorem Action_init_accepts_keywords (n : string) (kwargs : Dict.t) (k : string) :
  Dict.contains k (valid_args_of (Action.init n kwargs)) = Dict.contains k kwargs.
Proof.
  rewrite contains_valid_args. simpl.
  rewrite orb_false_r, map_map. reflexivity.
Qed.

(** X12: [add_parameter] returns the Action with the parameter appended,
    its name and flag unchanged; the name of the new parameter is then
    accepted by [call_action], and every other name is accepted exactly
    when it was before. *)
Theorem add_parameter_accepted (a : Action.t) (p : Property.t) (k : string) :
  exists a' : Action.t,
    Action.add_parameter a p = Ok a' /\
    Action.name a' = Action.name a /\
    Action.need_payload a' = Action.need_payload a /\
    Action.parameters a' = (Action.parameters a ++ [p])%list /\
    Dict.contains (Property.name p) (valid_args_of a') = true /\
    Dict.contains k (valid_args_of a')
      = String.eqb k (Property.name p) || Dict.contains k (valid_args_of a).
Proof.
  exists (Action.add_parameter_def a p).
  repeat split.
  - rewrite contains_valid_args. simpl.
    rewrite map_app, existsb_app. simpl.
    now rewrite String.eqb_refl, orb_true_r.
  - rewrite !contains_valid_args. simpl.
    rewrite map_app, existsb_app. simpl.
    destruct (existsb (String.eqb k) (map Property.name (Action.parameters a))),
      (String.eqb k (Property.name p)),
      (py_truthy (Action.need_payload a) && String.eqb k "payload");
      reflexivity.
Qed.

Lemma delitem_ok (k : string) (d d' : Dict.t) :
  Dict.delitem k d = Ok d' ->
  (forall kv, In kv d' -> In kv d) /\
  (forall kv, In kv d -> fst kv <> k -> In kv d').
Proof.
  revert d'. induction d as [| [k0 v0] d IH]; simpl; intros d' Hdel;
    [discriminate|].
  destruct (String.eqb_spec k k0) as [-> | Hne].
  - injection Hdel as <-. split; [now right|].
    intros kv [<- | Hin] Hk; [now simpl in Hk | assumption].
  - destruct (Dict.delitem k d) as [d1 |]; [| discriminate].
    injection Hdel as <-. destruct (IH d1 eq_refl) as [Hsub Hkeep].
    split.
    + intros kv [<- | Hin]; [now left | right; auto].
    + intros kv [<- | Hin] Hk; [now left | right; auto].
Qed.

Ltac same_state d Hd :=
  do 4 (split; [reflexivity|]);
  let d0 := fresh "d0" in
  let Hd0 := fresh "Hd0" in
  intros d0 Hd0; try rewrite Hd in Hd0;
  first [ discriminate Hd0
        | injection Hd0 as <-; exists d; repeat split; auto ].

Lemma filter_args_frame (ks : keys_semantics) (l : nat) (valid : Dict.t)
    (used : nat) (pending : list string) :
  forall (st : state) (r : result unit) (st' : state),
    filter_args ks l valid used pending st = (r, st') ->
    self st' = self st /\
    log st' = log st /\
    length (heap st') = length (heap st) /\
    (forall l', l' <> l -> heap st' !! l' = heap st !! l') /\
    (forall d, heap st !! l = Some d ->
       exists d', heap st' !! l = Some d' /\
                  (forall kv, In kv d' -> In kv d) /\
                  (forall kv, In kv d -> Dict.contains (fst kv) valid = true ->
                              In kv d')).
Proof.
  induction pending as [| k pending IH]; intros st r st' Hrun.
  - simpl in Hrun. unfold bind, deref in Hrun.
    destruct (heap st !! l) as [d |] eqn:Hd.
    + destruct (match ks with
                | KeysView => negb (Nat.eqb (length d) used)
                | KeysList => false
                end);
        unfold raise, ret in Hrun; injection Hrun as <- <-; same_state d Hd.
    + injection Hrun as <- <-. same_state (@nil (string * pyval)) Hd.
  - simpl in Hrun. unfold bind at 1 in Hrun. unfold deref at 1 in Hrun.
    destruct (heap st !! l) as [d |] eqn:Hd.
    2:{ injection Hrun as <- <-. same_state (@nil (string * pyval)) Hd. }
    destruct (match ks with
              | KeysView => negb (Nat.eqb (length d) used)
              | KeysList => false
              end).
    { unfold raise in Hrun. injection Hrun as <- <-. same_state d Hd. }
    destruct (Dict.contains k valid) eqn:Hk.
    + unfold bind at 1 in Hrun. unfold ret at 1 in Hrun.
      destruct (IH st r st' Hrun) as (Hs & Hl & Hlen & Hother & Hat).
      do 4 (split; [assumption|]).
      intros d0 Hd0. apply Hat.
      first [exact Hd0 | injection Hd0 as <-; exact Hd].
    + unfold bind at 1 in Hrun. unfold bind at 1 in Hrun.
      unfold lift at 1 in Hrun.
      destruct (Dict.delitem k d) as [d1 | e] eqn:Hdel.
      2:{ injection Hrun as <- <-. same_state d Hd. }
      unfold store at 1 in Hrun.
      destruct (delitem_ok k d d1 Hdel) as [Hsub Hkeep].
      pose proof (lookup_lt_Some _ _ _ Hd) as Hlt.
      destruct (IH _ r st' Hrun) as (Hs & Hl & Hlen & Hother & Hat).
      simpl in Hs, Hl, Hlen, Hother, Hat.
      split; [assumption|]. split; [assumption|].
      split; [now rewrite Hlen, length_insert|].
      split.
      * intros l' Hl'. rewrite (Hother l' Hl').
        apply list_lookup_insert_ne. congruence.
      * intros d0 Hd0. try rewrite Hd in Hd0. injection Hd0 as <-.
        destruct (Hat d1 (list_lookup_insert_eq _ _ _ Hlt))
          as (d' & Hd' & Hsub' & Hkeep').
        exists d'. repeat split; [assumption | auto |].
        intros kv Hin Hacc. apply Hkeep'; [| assumption].
        apply Hkeep; [assumption|]. intros Heq. rewrite Heq in Hacc. congruence.
Qed.

(** X13: the filtering loop of [call_action], whether it ends or raises,
    never touches the Thing, the log or any dict other than [args]; and
    in [args] it adds nothing and never removes an entry whose key is
    accepted. *)
Theorem filter_args_keeps_accepted (ks : keys_semantics) (l : nat)
    (valid : Dict.t) (st : state) (d : Dict.t)
    (Hd : heap st !! l = Some d) :
  let st' := snd (filter_args ks l valid (length d) (Dict.keys d) st) in
  self st' = self st /\
  log st' = log st /\
  (forall l', l' <> l -> heap st' !! l' = heap st !! l') /\
  exists d',
    heap st' !! l = Some d' /\
    (forall kv, In kv d' -> In kv d) /\
    (forall kv, In kv d -> Dict.contains (fst kv) valid = true -> In kv d').
Proof.
  cbv zeta.
  destruct (filter_args ks l valid (length d) (Dict.keys d) st)
    as [r st'] eqn:Hrun.
  destruct (filter_args_frame ks l valid (length d) (Dict.keys d) st r st' Hrun)
    as (Hs & Hl & _ & Hother & Hat).
  cbn [snd]. repeat split; try assumption. exact (Hat d Hd).
Qed.

Lemma filter_args_keeps_accepted_witness :
  let d := [("extra", PyInt 1); ("color", PyStr "00FF00"); ("more", PyInt 2)] in
  let other := [("extra", PyInt 9)] in
  let st := mkState (Thing.mk "t1" "lamp" "lamp" [] [] []) [other; d] [] in
  let valid := [("color", PyBool true)] in
  let st' := snd (filter_args KeysView 1%nat valid (length d) (Dict.keys d) st) in
  self st' = self st /\
  log st' = log st /\
  (forall l', l' <> 1%nat -> heap st' !! l' = heap st !! l') /\
  exists d',
    heap st' !! 1%nat = Some d' /\
    (forall kv, In kv d' -> In kv d) /\
    (forall kv, In kv d -> Dict.contains (fst kv) valid = true -> In kv d').
Proof.
  intros d other st valid.
  apply (filter_args_keeps_accepted KeysView 1%nat valid st d).
  reflexivity.
Defined.

(** X14: the successful path. With a callable member, a registered
    Action and a dict whose keys are all accepted, the member is called
    once with the items of the dict as they are; when it returns,
    [call_action] returns too, and the only thing it adds to what the
    member did is one info entry at the end of the log, made of
    [str(self)], the method name and the dict as it is then. *)
Theorem call_action_returns (cls : string -> option member)
    (method : string) (args : nat) (st st1 : state)
    (f : Dict.t -> M unit) (a : Action.t) (more : list Action.t)
    (d d1 : Dict.t)
    (Hm : getattr cls method st = (Ok (Callable f), st))
    (Ha : List.filter (fun a => String.eqb (Action.name a) method)
            (actions (self st)) = a :: more)
    (Hd : heap st !! args = Some d)
    (Hall : forallb (fun k => Dict.contains k (valid_args_of a)) (Dict.keys d)
            = true)
    (Hf : f d st = (Ok tt, st1))
    (Hd1 : heap st1 !! args = Some d1) :
  call_action cls method args st
    = (Ok tt,
       mkState (self st1) (heap st1)
               (log st1 ++ [LogInfo (Called (str (self st1)) method d1)])).
Proof.
  unfold call_action.
  rewrite (call_action_all_accepted cls KeysView method args st
             (Callable f) a more d Hm Ha Hd Hall).
  unfold call. unfold bind at 1. rewrite Hf.
  unfold bind at 1. unfold get_self at 1.
  unfold bind at 1. unfold deref at 1. rewrite Hd1.
  reflexivity.
Qed.

Lemma call_action_returns_witness :
  let color := Property.init "color" (Some (PyInt PropertyType.COLOR))
                 None None None None in
  let th := Thing.mk "t1" "lamp" "lamp" [EProperty color]
              [Action.init "setColor" [("color", PyInt PropertyType.COLOR)]] [] in
  let d := [("color", PyStr "00FF00")] in
  let st := mkState th [d] [] in
  let cls := fun n : string =>
               if String.eqb n "setColor"
               then Some (Callable (fun kwargs => update_property kwargs))
               else None in
  call_action cls "setColor" 0%nat st
    = (Ok tt,
       mkState (Thing.mk "t1" "lamp" "lamp"
                  [EProperty (Property.set_value color (PyStr "00FF00"))]
                  [Action.init "setColor" [("color", PyInt PropertyType.COLOR)]]
                  [])
               [d]
               [LogInfo (Called "t1.lamp(lamp)" "setColor" d)]).
Proof.
  intros color th d st cls.
  apply (call_action_returns cls "setColor" 0%nat st
           (mkState (Thing.mk "t1" "lamp" "lamp"
                       [EProperty (Property.set_value color (PyStr "00FF00"))]
                       [Action.init "setColor"
                          [("color", PyInt PropertyType.COLOR)]] [])
                    [d] [])
           (fun kwargs => update_property kwargs)
           (Action.init "setColor" [("color", PyInt PropertyType.COLOR)]) []
           d d); reflexivity.
Defined.

(** X15: an exception raised by the member goes through [call_action]
    unchanged, with the state as the member left it: no info entry is
    logged for a call that failed. *)
Theorem call_action_member_raises (cls : string -> option member)
    (method : string) (args : nat) (st st1 : state)
    (f : Dict.t -> M unit) (a : Action.t) (more : list Action.t)
    (d : Dict.t) (e : exn)
    (Hm : getattr cls method st = (Ok (Callable f), st))
    (Ha : List.filter (fun a => String.eqb (Action.name a) method)
            (actions (self st)) = a :: more)
    (Hd : heap st !! args = Some d)
    (Hall : forallb (fun k => Dict.contains k (valid_args_of a)) (Dict.keys d)
            = true)
    (Hf : f d st = (Raise e, st1)) :
  call_action cls method args st = (Raise e, st1).
Proof.
  unfold call_action.
  rewrite (call_action_all_accepted cls KeysView method args st
             (Callable f) a more d Hm Ha Hd Hall).
  unfold call. unfold bind at 1. now rewrite Hf.
Qed.

Lemma call_action_member_raises_witness :
  let th := Thing.mk "t1" "lamp" "lamp" [EStr "color"]
              [Action.init "setColor" [("color", PyInt PropertyType.COLOR)]] [] in
  let d := [("color", PyStr "00FF00")] in
  let st := mkState th [d] [] in
  let cls := fun n : string =>
               if String.eqb n "setColor"
               then Some (Callable (fun kwargs => update_property kwargs))
               else None in
  call_action cls "setColor" 0%nat st = (Raise AttributeError, st).
Proof.
  intros th d st cls.
  apply (call_action_member_raises cls "setColor" 0%nat st st
           (fun kwargs => update_property kwargs)
           (Action.init "setColor" [("color", PyInt PropertyType.COLOR)]) []
           d AttributeError); reflexivity.
Defined.

(** X16: when what [getattr(self, method)] finds is not callable (a data
    attribute holding a str, a list or a dict), the call never
    dispatches, even with an Action registered under that name: it
    raises, and neither the Thing nor the log changes. *)
Theorem call_action_not_callable (cls : string -> option member)
    (method : string) (args : nat) (st : state)
    (Hm : cls method = Some NotCallable) :
  exists (e : exn) (st' : state),
    call_action cls method args st = (Raise e, st') /\
    self st' = self st /\
    log st' = log st.
Proof.
  unfold call_action, call_action_with.
  unfold bind at 1. unfold getattr. rewrite Hm. unfold ret at 1.
  unfold bind at 1. unfold get_self at 1.
  destruct (List.filter (fun a => String.eqb (Action.name a) method)
              (actions (self st))) as [| a more].
  - exists IndexError, st. now repeat split.
  - unfold bind at 1. unfold ret at 1.
    unfold bind at 1. unfold deref at 1.
    destruct (heap st !! args) as [d |] eqn:Hd.
    2:{ exists AttributeError, st. now repeat split. }
    unfold bind at 1.
    destruct (filter_args KeysView args (valid_args_of a) (length d)
                (Dict.keys d) st) as [r st1] eqn:Hrun.
    destruct (filter_args_frame _ _ _ _ _ _ _ _ Hrun) as (Hs & Hl & _).
    destruct r as [[] | e].
    + unfold bind at 1. unfold deref at 1.
      destruct (heap st1 !! args) as [d1 |];
        exists AttributeError, st1; now repeat split.
    + exists e, st1. now repeat split.
Qed.

Lemma call_action_not_callable_witness :
  let th := Thing.mk "t1" "lamp" "lamp" []
              [Action.init "options" [("value", PyInt PropertyType.STRING)]] [] in
  let st := mkState th [[("value", PyStr "desk")]] [] in
  let cls := fun n : string =>
               if String.eqb n "options" then Some NotCallable else None in
  exists (e : exn) (st' : state),
    call_action cls "options" 0%nat st = (Raise e, st') /\
    self st' = self st /\
    log st' = log st.
Proof.
  intros th st cls.
  apply (call_action_not_callable cls "options" 0%nat st).
  reflexivity.
Defined.

(** * Properties of get_model *)

Lemma Property_get_model_inj (p q : Property.t) :
  Property.get_model p = Property.get_model q -> p = q.
Proof.
  destruct p, q. unfold Property.get_model. simpl.
  intros H. injection H as -> -> -> -> -> ->. reflexivity.
Qed.

Lemma map_get_model_inj (ps qs : list Property.t) :
  map Property.get_model ps = map Property.get_model qs -> ps = qs.
Proof.
  revert qs. induction ps as [| p ps IH]; intros [| q qs] H;
    simpl in H; try discriminate; [reflexivity|].
  assert (Hp : Property.get_model p = Property.get_model q) by congruence.
  assert (Hps : map Property.get_model ps = map Property.get_model qs)
    by congruence.
  now rewrite (Property_get_model_inj p q Hp), (IH qs Hps).
Qed.

(** X17: the model of a Property lists name, type, range, value, unit,
    description, in this order, and loses nothing: two Properties with
    the same model are equal. *)
Theorem Property_get_model_complete (p : Property.t) :
  (exists items,
      Property.get_model p = MDict items /\
      map fst items = ["name"; "type"; "range"; "value"; "unit"; "description"]) /\
  (forall q, Property.get_model p = Property.get_model q -> p = q).
Proof.
  split.
  - eexists. split; reflexivity.
  - intros q. apply Property_get_model_inj.
Qed.

(** X18: the model of an Action holds its name and the models of its
    parameters in order, and nothing else: two Actions have the same
    model exactly when they have the same name and parameters, so
    [need_payload] never shows in it. *)
Theorem Action_get_model_omits_flag (a b : Action.t) :
  (Action.get_model a = Action.get_model b <->
   Action.name a = Action.name b /\
   Action.parameters a = Action.parameters b) /\
  (forall payload,
      Action.get_model (Action.need_payload_def a payload) = Action.get_model a).
Proof.
  split; [| reflexivity].
  unfold Action.get_model. split.
  - intros H. injection H as Hn Hp.
    split; [assumption | now apply map_get_model_inj].
  - intros [-> ->]. reflexivity.
Qed.

Lemma models_of_instances (props : list Property.t) :
  models_of (map EProperty props) = Ok (map Property.get_model props).
Proof.
  induction props as [| p props IH]; simpl; [reflexivity | now rewrite IH].
Qed.

(** X19: on a collection of Property instances, [get_model] of a Thing
    returns without a change of state; the model lists id, name, kind,
    then the models of the properties and of the actions, each in the
    order of registration. The options of the Thing are not part of it. *)
Theorem Thing_get_model_instances (st : state) (props : list Property.t)
    (Hprops : properties (self st) = map EProperty props) :
  get_model st
    = (Ok (MDict [("id", MVal (PyStr (id (self st))));
                  ("name", MVal (PyStr (name (self st))));
                  ("kind", MVal (PyStr (kind (self st))));
                  ("properties", MList (map Property.get_model props));
                  ("actions", MList (map Action.get_model (actions (self st))))]),
       st).
Proof.
  unfold get_model, bind, get_self, lift, ret; simpl.
  now rewrite Hprops, models_of_instances.
Qed.

Lemma Thing_get_model_instances_witness :
  let x := Property.init "x" None (Some (PyInt 5)) None None None in
  let act := Action.init "setColor" [("color", PyInt PropertyType.COLOR)] in
  let st := mkState (Thing.mk "t1" "lamp" "thing" [EProperty x] [act]
                       [("room", PyStr "hall")]) [] [] in
  get_model st
    = (Ok (MDict [("id", MVal (PyStr "t1"));
                  ("name", MVal (PyStr "lamp"));
                  ("kind", MVal (PyStr "thing"));
                  ("properties", MList (map Property.get_model [x]));
                  ("actions", MList (map Action.get_model [act]))]),
       st).
Proof.
  intros x act st.
  apply (Thing_get_model_instances st [x]).
  reflexivity.
Defined.

(** X20: [add_action] has no early exit, so a batch can be split
    anywhere: registering [xs ++ ys] in one call is registering [xs] and
    then [ys]. *)
Theorem add_action_app (xs ys : list object) (st : state) :
  add_action (xs ++ ys) st = (add_action xs ;;; add_action ys) st.
Proof.
  revert st. induction xs as [| o xs IH]; intros st.
  - reflexivity.
  - change ((o :: xs) ++ ys)%list with (o :: (xs ++ ys))%list.
    cbn [add_action].
    destruct o as [[| b | z | s | m | fl] | p | a];
      unfold bind, append_action, logger_error, get_self, set_self;
      simpl; rewrite IH; reflexivity.
Qed.
